(** * monitoringsiswa: the authorization-aware data-access layer of [server.ts]

    A shallow embedding of the Express handlers of [server.ts] over an
    explicit model of the SQLite store they query.  The handlers are pure
    functions from the store and the request to a response (and, for the
    three inserts, to the next store).

    Conventions of the model:
    - a table is the list of its rows in rowid order, with the counter that
      [AUTOINCREMENT] keeps in [sqlite_sequence];
    - a JS or SQL value is [VNull], an integer, a fraction or a text; numbers
      are exact (integers in [Z], fractions in [Q]), so the rounding of
      doubles beyond 2^53 and the 64-bit range of SQLite are out of the model;
    - texts are byte strings; only ASCII white space is recognised;
    - the credentials of a login body are strings; the fields of an insert
      body are any value ([post_attendance], [post_grades], [post_behavior]),
      and [addAttendance], [addGrade], [addBehavior] are the same handlers
      on bodies whose NOT NULL fields are texts; booleans, arrays and
      objects, which the binder refuses, are out of the model;
    - [req.cookies.userId] is what cookie-parser hands to the handler when
      that is a string; a cookie it reads as JSON ([j:...]) is out of the
      model;
    - better-sqlite3 opens the file with foreign keys enforced: the stores
      of the running program have [foreign_keys] set. *)

From Stdlib Require Import ZArith QArith Bool List Ascii String Lia.
From Stdlib Require Import Sorting.Sorted Sorting.Permutation.
From Stdlib Require Import Numbers.DecimalString Numbers.DecimalZ.
Import ListNotations.

Local Open Scope string_scope.
Local Open Scope Z_scope.

(** ** Values and text-to-number conversions *)

Inductive value : Type :=
| VNull
| VInt (n : Z)
| VReal (q : Q)
| VText (s : string).

Module Lex.

Definition code (c : ascii) : Z := Z.of_N (N_of_ascii c).

(** White space skipped by [parseInt] and by SQLite's number reader:
    TAB, LF, VT, FF, CR and SPACE. *)
Definition is_space (c : ascii) : bool :=
  ((9 <=? code c) && (code c <=? 13)) || (code c =? 32).

(** Value of a character as a digit: 0-9, then a-z and A-Z as 10-35. *)
Definition digit_value (c : ascii) : option Z :=
  let n := code c in
  if (48 <=? n) && (n <=? 57) then Some (n - 48)
  else if (97 <=? n) && (n <=? 122) then Some (n - 87)
  else if (65 <=? n) && (n <=? 90) then Some (n - 55)
  else None.

Fixpoint skip_spaces (s : string) : string :=
  match s with
  | String c s' => if is_space c then skip_spaces s' else s
  | EmptyString => s
  end.

Fixpoint all_spaces (s : string) : bool :=
  match s with
  | String c s' => is_space c && all_spaces s'
  | EmptyString => true
  end.

(** An optional sign: [true] for "-". *)
Definition read_sign (s : string) : bool * string :=
  match s with
  | String "-" s' => (true, s')
  | String "+" s' => (false, s')
  | _ => (false, s)
  end.

(** The longest prefix of digits below [radix], accumulated into [acc];
    returns the value, the number of digits read and the rest. *)
Fixpoint read_digits (radix acc : Z) (n : nat) (s : string)
  : Z * nat * string :=
  match s with
  | String c s' =>
      match digit_value c with
      | Some d =>
          if d <? radix then read_digits radix (acc * radix + d) (S n) s'
          else (acc, n, s)
      | None => (acc, n, s)
      end
  | EmptyString => (acc, n, s)
  end.

Definition signed (neg : bool) (v : Z) : Z := if neg then - v else v.

End Lex.

(** JS [parseInt(string)] with no radix given: white space, sign, an optional
    [0x] prefix that selects radix 16, then the longest run of digits;
    [None] stands for [NaN]. *)
Definition parseInt (s : string) : option Z :=
  let s0 := Lex.skip_spaces s in
  let (neg, s1) := Lex.read_sign s0 in
  let (radix, s2) :=
    match s1 with
    | String "0" (String "x" r) => (16, r)
    | String "0" (String "X" r) => (16, r)
    | _ => (10, s1)
    end in
  let '(v, n, _) := Lex.read_digits radix 0 0 s2 in
  match n with
  | O => None
  | S _ => Some (Lex.signed neg v)
  end.

(** JS [String(n)] for an integer [n], as [res.cookie] applies it. *)
Definition String_of_number (n : Z) : string :=
  NilZero.string_of_int (Z.to_int n).

Module Sqlite.

(** The exponent part of a real literal: [e] or [E], a sign, digits.
    [None] when an [e] is followed by no digit. *)
Definition read_exponent (s : string) : option (Z * string) :=
  match s with
  | String "e" s' | String "E" s' =>
      let (neg, s1) := Lex.read_sign s' in
      let '(v, n, s2) := Lex.read_digits 10 0 0 s1 in
      match n with
      | O => None
      | S _ => Some (Lex.signed neg v, s2)
      end
  | _ => Some (0, s)
  end.

(** The digits, fraction and exponent of a literal whose sign was read. *)
Definition read_unsigned (neg : bool) (s1 : string) : option (Z * Z) :=
  let '(ip, ni, s2) := Lex.read_digits 10 0 0 s1 in
  let '(m, nf, s3) :=
    match s2 with
    | String "." s' => Lex.read_digits 10 ip 0 s'
    | _ => (ip, O, s2)
    end in
  match (ni + nf)%nat with
  | O => None
  | S _ =>
      match read_exponent s3 with
      | Some (e, s4) =>
          if Lex.all_spaces s4
          then Some (Lex.signed neg m, e - Z.of_nat nf)
          else None
      | None => None
      end
  end.

(** A well-formed integer or real literal, read as [m * 10^e]:
    white space, sign, digits, an optional fraction, an optional exponent,
    white space.  Hexadecimal is not well formed. *)
Definition read_number (s : string) : option (Z * Z) :=
  let (neg, s1) := Lex.read_sign (Lex.skip_spaces s) in
  read_unsigned neg s1.

(** A number is kept as an integer when it is one. *)
Definition of_Q (q : Q) : value :=
  let r := Qred q in
  match Qden r with
  | xH => VInt (Qnum r)
  | _ => VReal r
  end.

Definition of_scaled (m e : Z) : value :=
  if 0 <=? e then VInt (m * 10 ^ e)
  else of_Q (Qmake m (Z.to_pos (10 ^ (- e)))).

(** NUMERIC (and INTEGER) affinity: a text that is a well-formed number
    becomes that number, a fraction that is an integer becomes the integer;
    anything else is unchanged. *)
Definition numeric_affinity (v : value) : value :=
  match v with
  | VText s =>
      match read_number s with
      | Some (m, e) => of_scaled m e
      | None => v
      end
  | VReal q => of_Q q
  | _ => v
  end.

(** REAL affinity, of column [grades.score]. *)
Definition real_affinity (v : value) : value :=
  match numeric_affinity v with
  | VInt n => VReal (inject_Z n)
  | w => w
  end.

(** The [=] of a WHERE clause on two values whose affinities were applied;
    NULL equals nothing, a number never equals a text. *)
Definition eq (a b : value) : bool :=
  match a, b with
  | VInt x, VInt y => x =? y
  | VInt x, VReal q => Qeq_bool (inject_Z x) q
  | VReal q, VInt x => Qeq_bool q (inject_Z x)
  | VReal p, VReal q => Qeq_bool p q
  | VText s, VText t => String.eqb s t
  | _, _ => false
  end.

(** [column = ?] for an INTEGER column holding [n]. *)
Definition int_column_eq (n : Z) (param : value) : bool :=
  eq (VInt n) (numeric_affinity param).

(** [column = ?] for an INTEGER-affinity column holding a stored value. *)
Definition column_eq (stored param : value) : bool :=
  eq stored (numeric_affinity param).

End Sqlite.

(** ** The tables of [school.db] *)

Module User.
Record t : Type := mk
  { id : Z; username : string; password : string; role : string;
    student_id : value }.
End User.

Module Student.
Record t : Type := mk
  { id : Z; name : string; class : string;
    parent_name : option string; phone : option string }.
End Student.

Module Attendance.
Record t : Type := mk
  { id : Z; student_id : value; date : string; status : string }.
End Attendance.

Module Grade.
Record t : Type := mk
  { id : Z; student_id : value; subject : string; score : value;
    date : string }.
End Grade.

Module Behavior.
Record t : Type := mk
  { id : Z; student_id : value; type : string;
    description : option string; date : string }.
End Behavior.

(** A table: its rows in rowid order and its [sqlite_sequence] counter. *)
Record table (row : Type) : Type := mk_table
  { rows : list row; sequence : Z }.

Arguments mk_table {row} _ _.
Arguments rows {row} _.
Arguments sequence {row} _.

(** [foreign_keys] is the connection's [PRAGMA foreign_keys]: whether the
    FOREIGN KEY clauses of the schema are enforced. *)
Record Store : Type := mk_store
  { users : table User.t;
    students : table Student.t;
    attendance : table Attendance.t;
    grades : table Grade.t;
    behavior : table Behavior.t;
    foreign_keys : bool }.

(** ** Queries *)

Section Queries.

Context {row : Type}.

(** [ORDER BY]: a stable insertion sort for a total pre-order [le]. *)
Fixpoint insert_sorted (le : row -> row -> bool) (x : row) (l : list row)
  : list row :=
  match l with
  | [] => [x]
  | y :: l' => if le x y then x :: l else y :: insert_sorted le x l'
  end.

Definition order_by (le : row -> row -> bool) (l : list row) : list row :=
  fold_right (insert_sorted le) [] l.

(** The order that a boolean comparison decides. *)
Definition holds (le : row -> row -> bool) (a b : row) : Prop :=
  le a b = true.

(** [ORDER BY date DESC] on a TEXT column: bytewise comparison. *)
Definition date_desc (date : row -> string) (a b : row) : bool :=
  String.leb (date b) (date a).

(** An INTEGER PRIMARY KEY AUTOINCREMENT rowid: one more than the largest
    rowid the table holds or has ever held. *)
Definition next_id (id : row -> Z) (t : table row) : Z :=
  fold_right Z.max (sequence t) (map id (rows t)) + 1.

Definition append_row (t : table row) (new_id : Z) (r : row) : table row :=
  {| rows := rows t ++ [r]; sequence := new_id |}.

End Queries.

(** [ORDER BY date DESC] returns the selected rows, most recent date first:
    no date is bytewise smaller than one that follows it. *)
Definition date_descending {row : Type} (date : row -> string)
  (l : list row) : Prop :=
  StronglySorted (fun a b => String.leb (date b) (date a) = true) l.

(** [SELECT status, COUNT( * ) ... GROUP BY status], over the [status] column
    of the selected rows: one pair per distinct status, in ascending order. *)
Definition group_count (l : list string) : list (string * nat) :=
  map (fun s => (s, count_occ string_dec l s))
      (order_by String.leb (nodup string_dec l)).

(** A child key satisfies [REFERENCES students(id)] when it is NULL or the
    id of a student row; nothing is checked when enforcement is off. *)
Definition references_student (db : Store) (v : value) : bool :=
  match v with
  | VNull => true
  | _ => existsb (fun s => Sqlite.eq (VInt (Student.id s)) v)
                 (rows (students db))
  end.

Definition foreign_key_ok (db : Store) (v : value) : bool :=
  negb (foreign_keys db) || references_student db v.

(** ** Requests and responses *)

(** What [/api/login] and [/api/me] send of a user row. *)
Record user_view : Type := mk_view
  { view_id : Z; view_username : string; view_role : string;
    view_student_id : value }.

Definition view_of (user : User.t) : user_view :=
  {| view_id := User.id user; view_username := User.username user;
     view_role := User.role user; view_student_id := User.student_id user |}.

Inductive payload : Type :=
| Message (message : string)
| LoginOk (user : user_view)
| LoginFailed (message : string)
| Success
| Me (user : user_view)
| Students (l : list Student.t)
| Detail (student : option Student.t) (attendance : list Attendance.t)
         (grades : list Grade.t) (behavior : list Behavior.t)
| Stats (totalStudents : nat) (attendanceToday : list (string * nat))
| Uncaught.

(** The effect of a response on the client's [userId] cookie. *)
Inductive cookie_action : Type :=
| Keep
| SetUserId (v : string)
| ClearUserId.

Record response : Type := mk_response
  { status : Z; body : payload; cookie : cookie_action }.

Definition json (code : Z) (b : payload) : response :=
  {| status := code; body := b; cookie := Keep |}.

Definition forbidden : response := json 403 (Message "Forbidden").

(** An exception thrown by a statement reaches Express's default error
    handler, which answers 500. *)
Definition uncaught : response := json 500 Uncaught.

(** The cookie the client holds after a response. *)
Definition apply_cookie (a : cookie_action) (jar : option string)
  : option string :=
  match a with
  | Keep => jar
  | SetUserId v => Some v
  | ClearUserId => None
  end.

(** ** Handlers *)

(** [getSessionUser]: an absent or empty cookie is falsy; otherwise
    [SELECT * FROM users WHERE id = ?] with the cookie text. *)
Definition getSessionUser (db : Store) (userId : option string)
  : option User.t :=
  match userId with
  | None => None
  | Some EmptyString => None
  | Some c =>
      find (fun u => Sqlite.int_column_eq (User.id u) (VText c))
           (rows (users db))
  end.

(** [POST /api/login] *)
Definition login (db : Store) (username password : string) : response :=
  match find (fun u => String.eqb (User.username u) username
                       && String.eqb (User.password u) password)
             (rows (users db)) with
  | Some user =>
      {| status := 200; body := LoginOk (view_of user);
         cookie := SetUserId (String_of_number (User.id user)) |}
  | None => json 401 (LoginFailed "Username atau password salah")
  end.

(** [POST /api/logout] *)
Definition logout : response :=
  {| status := 200; body := Success; cookie := ClearUserId |}.

(** [GET /api/me] *)
Definition me (db : Store) (userId : option string) : response :=
  match getSessionUser db userId with
  | Some user => json 200 (Me (view_of user))
  | None => json 401 (Message "Not authenticated")
  end.

(** The guard [!user || user.role !== 'teacher'] of the teacher-only routes. *)
Definition not_teacher (user : option User.t) : bool :=
  match user with
  | None => true
  | Some u => negb (String.eqb (User.role u) "teacher")
  end.

(** [GET /api/students] *)
Definition listStudents (db : Store) (userId : option string) : response :=
  if not_teacher (getSessionUser db userId) then forbidden
  else json 200 (Students (rows (students db))).

(** [user.student_id !== parseInt(req.params.id)]: strict inequality of a
    column value and a number or [NaN]. *)
Definition strict_neq (v : value) (n : option Z) : bool :=
  match v, n with
  | VInt a, Some b => negb (a =? b)
  | VReal q, Some b => negb (Qeq_bool q (inject_Z b))
  | _, _ => true
  end.

(** The complement of the gate of [GET /api/students/:id]: who gets past it. *)
Definition may_read (user : User.t) (id : string) : bool :=
  negb (String.eqb (User.role user) "student"
        && strict_neq (User.student_id user) (parseInt id)).

(** [GET /api/students/:id] *)
Definition getStudentDetail (db : Store) (userId : option string)
  (id : string) : response :=
  match getSessionUser db userId with
  | None => json 401 (Message "Unauthorized")
  | Some user =>
      if String.eqb (User.role user) "student"
         && strict_neq (User.student_id user) (parseInt id)
      then forbidden
      else
        let student :=
          find (fun s => Sqlite.int_column_eq (Student.id s) (VText id))
               (rows (students db)) in
        let attendance :=
          order_by (date_desc Attendance.date)
            (filter (fun a => Sqlite.column_eq (Attendance.student_id a)
                                               (VText id))
                    (rows (attendance db))) in
        let grades :=
          order_by (date_desc Grade.date)
            (filter (fun g => Sqlite.column_eq (Grade.student_id g) (VText id))
                    (rows (grades db))) in
        let behavior :=
          order_by (date_desc Behavior.date)
            (filter (fun b => Sqlite.column_eq (Behavior.student_id b)
                                               (VText id))
                    (rows (behavior db))) in
        json 200 (Detail student attendance grades behavior)
  end.

Definition set_attendance (db : Store) (t : table Attendance.t) : Store :=
  {| users := users db; students := students db; attendance := t;
     grades := grades db; behavior := behavior db;
     foreign_keys := foreign_keys db |}.

Definition set_grades (db : Store) (t : table Grade.t) : Store :=
  {| users := users db; students := students db; attendance := attendance db;
     grades := t; behavior := behavior db;
     foreign_keys := foreign_keys db |}.

Definition set_behavior (db : Store) (t : table Behavior.t) : Store :=
  {| users := users db; students := students db; attendance := attendance db;
     grades := grades db; behavior := t;
     foreign_keys := foreign_keys db |}.

(** The row that [INSERT INTO attendance (student_id, date, status)] stores:
    a fresh rowid, [student_id] under the INTEGER affinity of its column. *)
Definition new_attendance (db : Store) (student_id : value)
  (date status : string) : Attendance.t :=
  {| Attendance.id := next_id Attendance.id (attendance db);
     Attendance.student_id := Sqlite.numeric_affinity student_id;
     Attendance.date := date; Attendance.status := status |}.

Definition new_grade (db : Store) (student_id : value) (subject : string)
  (score : value) (date : string) : Grade.t :=
  {| Grade.id := next_id Grade.id (grades db);
     Grade.student_id := Sqlite.numeric_affinity student_id;
     Grade.subject := subject; Grade.score := Sqlite.real_affinity score;
     Grade.date := date |}.

Definition new_behavior (db : Store) (student_id : value) (type : string)
  (description : option string) (date : string) : Behavior.t :=
  {| Behavior.id := next_id Behavior.id (behavior db);
     Behavior.student_id := Sqlite.numeric_affinity student_id;
     Behavior.type := type; Behavior.description := description;
     Behavior.date := date |}.

(** [POST /api/attendance] *)
Definition addAttendance (db : Store) (userId : option string)
  (student_id : value) (date status : string) : Store * response :=
  if not_teacher (getSessionUser db userId) then (db, forbidden)
  else
    let r := new_attendance db student_id date status in
    if foreign_key_ok db (Attendance.student_id r)
    then (set_attendance db
            (append_row (attendance db) (Attendance.id r) r),
          json 200 Success)
    else (db, uncaught).

(** [POST /api/grades] *)
Definition addGrade (db : Store) (userId : option string)
  (student_id : value) (subject : string) (score : value) (date : string)
  : Store * response :=
  if not_teacher (getSessionUser db userId) then (db, forbidden)
  else
    let r := new_grade db student_id subject score date in
    if foreign_key_ok db (Grade.student_id r)
    then (set_grades db (append_row (grades db) (Grade.id r) r),
          json 200 Success)
    else (db, uncaught).

(** [POST /api/behavior] *)
Definition addBehavior (db : Store) (userId : option string)
  (student_id : value) (type : string) (description : option string)
  (date : string) : Store * response :=
  if not_teacher (getSessionUser db userId) then (db, forbidden)
  else
    let r := new_behavior db student_id type description date in
    if foreign_key_ok db (Behavior.student_id r)
    then (set_behavior db (append_row (behavior db) (Behavior.id r) r),
          json 200 Success)
    else (db, uncaught).

(** [GET /api/stats]; [today] is [new Date().toISOString().split('T')[0]],
    the clock's calendar day. *)
Definition computeStats (db : Store) (userId : option string)
  (today : string) : response :=
  if not_teacher (getSessionUser db userId) then forbidden
  else
    json 200
      (Stats (List.length (rows (students db)))
         (group_count
            (map Attendance.status
               (filter (fun a => String.eqb (Attendance.date a) today)
                       (rows (attendance db)))))).

(** ** The inserts on any body *)

Section Bodies.

(** The text that SQLite stores when a number is bound to a TEXT column;
    the handlers do not depend on which text that is. *)
Variable number_text : value -> string.

(** TEXT affinity of a bound value: a text is kept, a number becomes a
    text, NULL stays NULL ([None]).  For a NOT NULL column it makes no
    difference whether the field is null or absent from the body: the
    statement throws either way. *)
Definition text_affinity (v : value) : option string :=
  match v with
  | VNull => None
  | VText s => Some s
  | VInt _ | VReal _ => Some (number_text v)
  end.

(** [POST /api/attendance] on any body: [date] and [status] are NOT NULL,
    so the statement throws when one of them is NULL, as it does on a
    broken foreign key. *)
Definition post_attendance (db : Store) (userId : option string)
  (student_id date status : value) : Store * response :=
  if not_teacher (getSessionUser db userId) then (db, forbidden)
  else
    match text_affinity date, text_affinity status with
    | Some d, Some s =>
        let r := new_attendance db student_id d s in
        if foreign_key_ok db (Attendance.student_id r)
        then (set_attendance db
                (append_row (attendance db) (Attendance.id r) r),
              json 200 Success)
        else (db, uncaught)
    | _, _ => (db, uncaught)
    end.

(** [POST /api/grades] on any body: [subject] and [date] are NOT NULL. *)
Definition post_grades (db : Store) (userId : option string)
  (student_id subject score date : value) : Store * response :=
  if not_teacher (getSessionUser db userId) then (db, forbidden)
  else
    match text_affinity subject, text_affinity date with
    | Some sb, Some d =>
        let r := new_grade db student_id sb score d in
        if foreign_key_ok db (Grade.student_id r)
        then (set_grades db (append_row (grades db) (Grade.id r) r),
              json 200 Success)
        else (db, uncaught)
    | _, _ => (db, uncaught)
    end.

(** [POST /api/behavior] on any body: [type] and [date] are NOT NULL,
    [description] may be NULL. *)
Definition post_behavior (db : Store) (userId : option string)
  (student_id type description date : value) : Store * response :=
  if not_teacher (getSessionUser db userId) then (db, forbidden)
  else
    match text_affinity type, text_affinity date with
    | Some t, Some d =>
        let r := new_behavior db student_id t (text_affinity description) d in
        if foreign_key_ok db (Behavior.student_id r)
        then (set_behavior db (append_row (behavior db) (Behavior.id r) r),
              json 200 Success)
        else (db, uncaught)
    | _, _ => (db, uncaught)
    end.

End Bodies.


(** The number of attendance rows of day [today] with status [s]. *)
Definition count_today (db : Store) (today s : string) : nat :=
  List.length
    (filter (fun a => String.eqb (Attendance.date a) today
                      && String.eqb (Attendance.status a) s)
            (rows (attendance db))).

(** ** The constraints of the schema *)

(** PRIMARY KEY on every [id], UNIQUE on [users.username]. *)
Record wf_store (db : Store) : Prop := mk_wf
  { wf_user_ids : NoDup (map User.id (rows (users db)));
    wf_usernames : NoDup (map User.username (rows (users db)));
    wf_student_ids : NoDup (map Student.id (rows (students db)));
    wf_attendance_ids : NoDup (map Attendance.id (rows (attendance db)));
    wf_grade_ids : NoDup (map Grade.id (rows (grades db)));
    wf_behavior_ids : NoDup (map Behavior.id (rows (behavior db))) }.

(** ** Sample stores *)

(** The database that the seeding at start-up creates from an empty file. *)
Definition seeded (fk : bool) : Store :=
  {| users :=
       mk_table
         [ User.mk 1 "guru" "guru123" "teacher" VNull;
           User.mk 2 "ahmad" "siswa123" "student" (VInt 1);
           User.mk 3 "siti" "siswa123" "student" (VInt 2) ] 3;
     students :=
       mk_table
         [ Student.mk 1 "Ahmad Fauzi" "10-A" (Some "Budi Santoso")
             (Some "08123456789");
           Student.mk 2 "Siti Aminah" "10-A" (Some "Hasan Basri")
             (Some "08123456780");
           Student.mk 3 "Budi Pratama" "10-B" (Some "Agus Setiawan")
             (Some "08123456781");
           Student.mk 4 "Dewi Lestari" "11-A" (Some "Eko Prasetyo")
             (Some "08123456782") ] 4;
     attendance := mk_table [] 0;
     grades := mk_table [] 0;
     behavior := mk_table [] 0;
     foreign_keys := fk |}.

(** A school with ten students: the seeded one after six more enrolments. *)
Definition ten_students (fk : bool) : Store :=
  {| users := users (seeded fk);
     students :=
       mk_table
         (rows (students (seeded fk)) ++
          [ Student.mk 5 "Eka Putri" "11-A" None None;
            Student.mk 6 "Fajar Nugroho" "11-B" None None;
            Student.mk 7 "Gita Sari" "11-B" None None;
            Student.mk 8 "Hadi Wijaya" "12-A" None None;
            Student.mk 9 "Indah Permata" "12-A" None None;
            Student.mk 10 "Joko Susilo" "12-B" (Some "Slamet Susilo")
              (Some "08123456790") ]) 10;
     attendance :=
       mk_table [ Attendance.mk 1 (VInt 10) "2024-03-01" "sick" ] 1;
     grades :=
       mk_table
         [ Grade.mk 1 (VInt 10) "Matematika" (VReal (inject_Z 55))
             "2024-03-02" ] 1;
     behavior := mk_table [] 0;
     foreign_keys := fk |}.

(** ** Start-up: seeding *)

Definition set_students (db : Store) (t : table Student.t) : Store :=
  {| users := users db; students := t; attendance := attendance db;
     grades := grades db; behavior := behavior db;
     foreign_keys := foreign_keys db |}.

Definition set_users (db : Store) (t : table User.t) : Store :=
  {| users := t; students := students db; attendance := attendance db;
     grades := grades db; behavior := behavior db;
     foreign_keys := foreign_keys db |}.

(** [insertStudent.run(name, class, parent_name, phone)]: no constraint of
    the students table can fail on four texts. *)
Definition insertStudent (db : Store) (name class parent_name phone : string)
  : Store :=
  let id := next_id Student.id (students db) in
  set_students db
    (append_row (students db) id
       (Student.mk id name class (Some parent_name) (Some phone))).

(** [insertUser.run(username, password, role, student_id)]: [None] when the
    statement throws, on a username already taken (UNIQUE) or on a
    student_id that breaks the foreign key. *)
Definition insertUser (db : Store) (username password role : string)
  (student_id : value) : option Store :=
  let id := next_id User.id (users db) in
  let sid := Sqlite.numeric_affinity student_id in
  if existsb (fun u => String.eqb (User.username u) username)
             (rows (users db))
  then None
  else if foreign_key_ok db sid
  then Some (set_users db
               (append_row (users db) id
                  (User.mk id username password role sid)))
  else None.

(** How the module-level code ends: the server starts on a store, or one of
    the statements threw and the process stopped, leaving the store as the
    statements before it made it. *)
Inductive startup : Type :=
| Started (db : Store)
| Threw (db : Store).

Definition store_of (s : startup) : Store :=
  match s with
  | Started db => db
  | Threw db => db
  end.

(** One more [insertUser.run] in a sequence of statements. *)
Definition then_insertUser (s : startup) (username password role : string)
  (student_id : value) : startup :=
  match s with
  | Threw _ => s
  | Started db =>
      match insertUser db username password role student_id with
      | Some db' => Started db'
      | None => Threw db
      end
  end.

(** Lines 56-63: four students when the table is empty. *)
Definition seed_students (db : Store) : Store :=
  match rows (students db) with
  | [] =>
      insertStudent
        (insertStudent
           (insertStudent
              (insertStudent db
                 "Ahmad Fauzi" "10-A" "Budi Santoso" "08123456789")
              "Siti Aminah" "10-A" "Hasan Basri" "08123456780")
           "Budi Pratama" "10-B" "Agus Setiawan" "08123456781")
        "Dewi Lestari" "11-A" "Eko Prasetyo" "08123456782"
  | _ :: _ => db
  end.

(** Lines 65-72: three users when the table is empty. *)
Definition seed_users (db : Store) : startup :=
  match rows (users db) with
  | [] =>
      then_insertUser
        (then_insertUser
           (then_insertUser (Started db) "guru" "guru123" "teacher" VNull)
           "ahmad" "siswa123" "student" (VInt 1))
        "siti" "siswa123" "student" (VInt 2)
  | _ :: _ => Started db
  end.

Definition seed (db : Store) : startup := seed_users (seed_students db).

(** A database file that was just created: empty tables, no rowid used. *)
Definition empty_db (fk : bool) : Store :=
  {| users := mk_table [] 0; students := mk_table [] 0;
     attendance := mk_table [] 0; grades := mk_table [] 0;
     behavior := mk_table [] 0; foreign_keys := fk |}.

(** Every child key of the three record tables names a student or is NULL. *)
Record references_ok (db : Store) : Prop := mk_refs
  { refs_attendance :
      forall a, In a (rows (attendance db)) ->
                references_student db (Attendance.student_id a) = true;
    refs_grades :
      forall g, In g (rows (grades db)) ->
                references_student db (Grade.student_id g) = true;
    refs_behavior :
      forall b, In b (rows (behavior db)) ->
                references_student db (Behavior.student_id b) = true }.

(** ** The client, [App.tsx] *)

(** [res.ok]: a status in 200-299. *)
Definition ok (r : response) : bool :=
  (200 <=? status r) && (status r <=? 299).

(** The [stats] state after [fetchTeacherData]: the parsed body when the
    response is ok, else the initial [null]. *)
Definition stats_state (statsRes : response) : option payload :=
  if ok statsRes then Some (body statsRes) else None.

(** The figure under "Hadir Hari Ini":
    [stats?.attendanceToday?.find(a => a.status === 'present')?.count || 0]. *)
Definition present_today (stats : option payload) : nat :=
  match stats with
  | Some (Stats _ attendanceToday) =>
      match find (fun a => String.eqb (fst a) "present") attendanceToday with
      | Some a => snd a
      | None => O
      end
  | _ => O
  end.

(** The students list of the teacher's view.  [toLowerCase] is the method
    of JS strings, kept abstract; [includes] is the substring test. *)
Fixpoint includes (s t : string) : bool :=
  if String.prefix t s then true
  else match s with
       | EmptyString => false
       | String _ s' => includes s' t
       end.

Definition filteredStudents (toLowerCase : string -> string)
  (students : list Student.t) (searchTerm : string) : list Student.t :=
  filter (fun s =>
            includes (toLowerCase (Student.name s)) (toLowerCase searchTerm)
            || includes (toLowerCase (Student.class s))
                        (toLowerCase searchTerm))
         students.

(** Lower case for the letters A-Z, other bytes unchanged: what
    [toLowerCase] does on ASCII texts. *)
Definition ascii_lower (c : ascii) : ascii :=
  let n := Lex.code c in
  if (65 <=? n) && (n <=? 90) then ascii_of_N (Z.to_N (n + 32)) else c.

Fixpoint ascii_toLowerCase (s : string) : string :=
  match s with
  | EmptyString => EmptyString
  | String c s' => String (ascii_lower c) (ascii_toLowerCase s')
  end.

(** A file in which the students and the users were deleted after the
    rowids 1-4 and 1-3 had been used, opened with foreign keys enforced. *)
Definition deleted_rows : Store :=
  {| users := mk_table [] 3; students := mk_table [] 4;
     attendance := mk_table [] 0; grades := mk_table [] 0;
     behavior := mk_table [] 0; foreign_keys := true |}.

(** * Properties *)

(** ** The conversions at work *)

Example parseInt_1e1 : parseInt "1e1" = Some 1.
Proof. reflexivity. Qed.

Example parseInt_hex : parseInt " -0x1f" = Some (-31).
Proof. reflexivity. Qed.

Example parseInt_nan : parseInt "abc" = None.
Proof. reflexivity. Qed.

Example numeric_1e1 : Sqlite.numeric_affinity (VText "1e1") = VInt 10.
Proof. reflexivity. Qed.

Example numeric_frac : Sqlite.numeric_affinity (VText "2.50") = VReal (5 # 2).
Proof. reflexivity. Qed.

Example numeric_int_frac : Sqlite.numeric_affinity (VText " 12.0 ") = VInt 12.
Proof. reflexivity. Qed.

Example numeric_text : Sqlite.numeric_affinity (VText "1abc") = VText "1abc".
Proof. reflexivity. Qed.

Example String_of_number_42 : String_of_number 42 = "42".
Proof. reflexivity. Qed.

Example ahmad_reads_own :
  status (getStudentDetail (seeded true) (Some "2") "1") = 200.
Proof. reflexivity. Qed.

Example ahmad_reads_siti :
  getStudentDetail (seeded true) (Some "2") "2" = forbidden.
Proof. reflexivity. Qed.

(** ** Printing an integer and reading it back *)

Section Decimal_roundtrip.

Import Decimal.

Lemma read_digits_step (acc : Z) (n : nat) (c : ascii) (s : string) (d : Z) :
  Lex.digit_value c = Some d -> (d <? 10) = true ->
  Lex.read_digits 10 acc n (String c s)
  = Lex.read_digits 10 (acc * 10 + d) (S n) s.
Proof.
  intros Hc Hd. simpl. rewrite Hc, Hd. reflexivity.
Qed.

Ltac digit_step :=
  erewrite read_digits_step; [ | vm_compute; reflexivity | reflexivity ].

Lemma read_digits_uint_pos (d : uint) :
  forall (p : positive) (n : nat),
    Lex.read_digits 10 (Z.pos p) n (NilEmpty.string_of_uint d)
    = (Z.pos (Pos.of_uint_acc d p), (n + nb_digits d)%nat, EmptyString).
Proof.
  induction d; intros p n; cbn [NilEmpty.string_of_uint];
    [ simpl; rewrite Nat.add_0_r; reflexivity | .. ];
    digit_step;
    cbn [Pos.of_uint_acc nb_digits];
    rewrite Nat.add_succ_r, <- Nat.add_succ_l;
    rewrite <- IHd; f_equal; lia.
Qed.

Lemma read_digits_uint (d : uint) :
  forall n : nat,
    Lex.read_digits 10 0 n (NilEmpty.string_of_uint d)
    = (Z.of_N (Pos.of_uint d), (n + nb_digits d)%nat, EmptyString).
Proof.
  induction d; intros n; cbn [NilEmpty.string_of_uint];
    [ simpl; rewrite Nat.add_0_r; reflexivity | .. ];
    digit_step;
    cbn [Pos.of_uint nb_digits];
    rewrite Nat.add_succ_r, <- Nat.add_succ_l;
    [ rewrite <- IHd; reflexivity
    | cbn [Z.of_N]; rewrite <- read_digits_uint_pos; reflexivity .. ].
Qed.

End Decimal_roundtrip.

Section Number_roundtrip.

Import Decimal.

Lemma read_unsigned_uint (neg : bool) (d : uint) :
  d <> Nil ->
  Sqlite.read_unsigned neg (NilEmpty.string_of_uint d)
  = Some (Lex.signed neg (Z.of_uint d), 0).
Proof.
  intros Hd. unfold Sqlite.read_unsigned.
  rewrite read_digits_uint.
  destruct d; [ contradiction | reflexivity .. ].
Qed.

Lemma read_sign_uint (d : uint) :
  d <> Nil ->
  Lex.read_sign (Lex.skip_spaces (NilEmpty.string_of_uint d))
  = (false, NilEmpty.string_of_uint d).
Proof.
  destruct d; [ contradiction | reflexivity .. ].
Qed.

Lemma read_number_uint (d : uint) :
  Sqlite.read_number (NilZero.string_of_uint d) = Some (Z.of_uint d, 0).
Proof.
  destruct d eqn:E; [ reflexivity | .. ];
    rewrite <- E;
    assert (Hd : d <> Nil) by (rewrite E; discriminate);
    (replace (NilZero.string_of_uint d) with (NilEmpty.string_of_uint d)
      by (rewrite E; reflexivity));
    unfold Sqlite.read_number;
    rewrite (read_sign_uint d Hd);
    apply (read_unsigned_uint false d Hd).
Qed.

Lemma read_number_int (i : int) :
  Sqlite.read_number (NilZero.string_of_int i) = Some (Z.of_int i, 0).
Proof.
  destruct i as [d | d]; [ apply read_number_uint | ].
  destruct d eqn:E; [ reflexivity | .. ];
    rewrite <- E;
    assert (Hd : d <> Nil) by (rewrite E; discriminate);
    cbn [NilZero.string_of_int];
    (replace (NilZero.string_of_uint d) with (NilEmpty.string_of_uint d)
      by (rewrite E; reflexivity));
    unfold Sqlite.read_number;
    cbn [Lex.skip_spaces Lex.read_sign];
    change (Lex.is_space "-") with false; cbv iota;
    apply (read_unsigned_uint true d Hd).
Qed.

End Number_roundtrip.

(** The text [String(n)] is read back as the integer [n] under NUMERIC
    affinity: the cookie that login sets names the row it was made from. *)
Lemma numeric_affinity_String_of_number (n : Z) :
  Sqlite.numeric_affinity (VText (String_of_number n)) = VInt n.
Proof.
  unfold Sqlite.numeric_affinity, String_of_number.
  rewrite read_number_int, DecimalZ.of_to.
  unfold Sqlite.of_scaled. simpl. f_equal. lia.
Qed.

Lemma String_of_number_nonempty (n : Z) : String_of_number n <> EmptyString.
Proof.
  unfold String_of_number.
  destruct (Z.to_int n) as [d | d]; [ | discriminate ].
  destruct d; discriminate.
Qed.

(** ** ORDER BY *)

Section Order_by.

Context {row : Type} (le : row -> row -> bool).

Local Abbreviation R := (holds le).

Hypothesis le_total : forall a b, le a b = true \/ le b a = true.

Lemma insert_sorted_perm (x : row) (l : list row) :
  Permutation (insert_sorted le x l) (x :: l).
Proof.
  induction l as [| y l IH]; simpl.
  - apply Permutation_refl.
  - destruct (le x y).
    + apply Permutation_refl.
    + apply perm_trans with (y :: x :: l).
      * apply perm_skip, IH.
      * apply perm_swap.
Qed.

Lemma order_by_perm (l : list row) : Permutation (order_by le l) l.
Proof.
  induction l as [| x l IH]; simpl.
  - apply perm_nil.
  - apply perm_trans with (x :: order_by le l).
    + apply insert_sorted_perm.
    + apply perm_skip, IH.
Qed.

Lemma order_by_In (x : row) (l : list row) :
  In x (order_by le l) <-> In x l.
Proof.
  split; apply Permutation_in;
    [ apply order_by_perm | apply Permutation_sym, order_by_perm ].
Qed.

Lemma insert_sorted_HdRel (y x : row) (l : list row) :
  R y x -> HdRel R y l -> HdRel R y (insert_sorted le x l).
Proof.
  intros Hyx Hl. destruct l as [| z l]; simpl.
  - constructor. exact Hyx.
  - destruct (le x z).
    + constructor. exact Hyx.
    + constructor. inversion Hl; assumption.
Qed.

Lemma insert_sorted_Sorted (x : row) (l : list row) :
  Sorted R l -> Sorted R (insert_sorted le x l).
Proof.
  induction l as [| y l IH]; intros Hs; simpl.
  - repeat constructor.
  - destruct (le x y) eqn:Hxy.
    + constructor; [ exact Hs | constructor; exact Hxy ].
    + inversion Hs as [| ? ? Hs' Hhd]; subst.
      constructor; [ apply IH, Hs' | ].
      apply insert_sorted_HdRel; [ | exact Hhd ].
      destruct (le_total x y) as [H | H]; [ congruence | exact H ].
Qed.

Lemma order_by_Sorted (l : list row) : Sorted R (order_by le l).
Proof.
  induction l as [| x l IH]; simpl.
  - constructor.
  - apply insert_sorted_Sorted, IH.
Qed.

End Order_by.

Lemma string_leb_trans (a b c : string) :
  String.leb a b = true -> String.leb b c = true -> String.leb a c = true.
Proof.
  unfold String.leb. revert b c.
  induction a as [| x a IH]; intros [| y b] [| z c]; simpl;
    try congruence.
  unfold Ascii.compare.
  destruct (N.compare_spec (N_of_ascii x) (N_of_ascii y)) as [Exy | Lxy | Gxy];
    destruct (N.compare_spec (N_of_ascii y) (N_of_ascii z)) as [Eyz | Lyz | Gyz];
    destruct (N.compare_spec (N_of_ascii x) (N_of_ascii z)) as [Exz | Lxz | Gxz];
    try congruence; try lia; apply IH.
Qed.

Lemma order_by_date_desc {row : Type} (date : row -> string) (l : list row) :
  date_descending date (order_by (date_desc date) l).
Proof.
  apply Sorted_StronglySorted.
  - intros a b c Hab Hbc. eapply string_leb_trans; eassumption.
  - apply (order_by_Sorted (date_desc date)).
    intros a b. unfold date_desc. apply String.leb_total.
Qed.

(** ** Looking a row up by a unique key *)

Lemma find_unique {A K : Type} (key : A -> K) (f : A -> bool)
  (l : list A) (u : A) :
  NoDup (map key l) -> In u l -> f u = true ->
  (forall v, In v l -> f v = true -> key v = key u) ->
  find f l = Some u.
Proof.
  induction l as [| a l IH]; intros Hnd Hin Hfu Hkey; [ contradiction | ].
  simpl in *. inversion Hnd as [| ? ? Hnotin Hnd']; subst.
  destruct (f a) eqn:Hfa.
  - destruct Hin as [-> | Hin]; [ reflexivity | ].
    exfalso. apply Hnotin.
    rewrite (Hkey a (or_introl eq_refl) Hfa).
    apply in_map, Hin.
  - destruct Hin as [-> | Hin]; [ congruence | ].
    apply IH; auto.
Qed.

Lemma int_column_eq_int (n m : Z) (s : string) :
  Sqlite.numeric_affinity (VText s) = VInt m ->
  Sqlite.int_column_eq n (VText s) = (n =? m).
Proof.
  unfold Sqlite.int_column_eq. intros ->. reflexivity.
Qed.

(** ** Sessions *)

Lemma getSessionUser_of_cookie (db : Store) (u : User.t) :
  wf_store db -> In u (rows (users db)) ->
  getSessionUser db (Some (String_of_number (User.id u))) = Some u.
Proof.
  intros Hwf Hin. unfold getSessionUser.
  destruct (String_of_number (User.id u)) eqn:E;
    [ exfalso; exact (String_of_number_nonempty _ E) | rewrite <- E ].
  assert (Hf : forall v,
             Sqlite.int_column_eq (User.id v)
               (VText (String_of_number (User.id u)))
             = (User.id v =? User.id u)).
  { intros v. apply int_column_eq_int, numeric_affinity_String_of_number. }
  apply find_unique with (key := User.id).
  - apply (wf_user_ids db Hwf).
  - exact Hin.
  - rewrite Hf. apply Z.eqb_refl.
  - intros v _ Hv. rewrite Hf in Hv. apply Z.eqb_eq, Hv.
Qed.

Lemma seeded_wf (fk : bool) : wf_store (seeded fk).
Proof.
  constructor; simpl;
    repeat (constructor; [ simpl; intuition (discriminate || lia) | ]);
    constructor.
Qed.

Lemma ten_students_wf (fk : bool) : wf_store (ten_students fk).
Proof.
  constructor; simpl;
    repeat (constructor; [ simpl; intuition (discriminate || lia) | ]);
    constructor.
Qed.

(** ** The gate of [GET /api/students/:id] *)

(** The gate compares [user.student_id] with [parseInt] of the path
    parameter: when they differ the answer is Forbidden, whatever the store
    holds. *)
Lemma detail_gate_forbidden (db : Store) (userId : option string)
  (id : string) (user : User.t) :
  getSessionUser db userId = Some user ->
  User.role user = "student" ->
  strict_neq (User.student_id user) (parseInt id) = true ->
  getStudentDetail db userId id = forbidden.
Proof.
  intros Hs Hr Hn. unfold getStudentDetail.
  rewrite Hs, Hr, Hn. reflexivity.
Qed.

(** C1, at the failing input.  In a school of ten students, ahmad (user 2,
    a student bound to student 1) asks for [/api/students/1e1].  [parseInt]
    reads the path parameter as 1, his own id, so the gate lets him through;
    the queries receive the text [1e1], which SQLite compares with the
    INTEGER columns as the number 10: the answer is 200 with the row, the
    attendance and the grades of student 10. *)
Theorem C1_exponent_id_reads_other_student :
  getSessionUser (ten_students true) (Some "2")
  = Some (User.mk 2 "ahmad" "siswa123" "student" (VInt 1))
  /\ parseInt "1e1" = Some 1
  /\ Sqlite.numeric_affinity (VText "1e1") = VInt 10
  /\ getStudentDetail (ten_students true) (Some "2") "1e1"
     = json 200
         (Detail
            (Some (Student.mk 10 "Joko Susilo" "12-B" (Some "Slamet Susilo")
                     (Some "08123456790")))
            [ Attendance.mk 1 (VInt 10) "2024-03-01" "sick" ]
            [ Grade.mk 1 (VInt 10) "Matematika" (VReal (inject_Z 55))
                "2024-03-02" ]
            []).
Proof.
  repeat split; reflexivity.
Qed.

Lemma detail_authorized (db : Store) (userId : option string) (id : string)
  (user : User.t) :
  getSessionUser db userId = Some user -> may_read user id = true ->
  getStudentDetail db userId id
  = json 200
      (Detail
         (find (fun s => Sqlite.int_column_eq (Student.id s) (VText id))
               (rows (students db)))
         (order_by (date_desc Attendance.date)
            (filter (fun a => Sqlite.column_eq (Attendance.student_id a)
                                               (VText id))
                    (rows (attendance db))))
         (order_by (date_desc Grade.date)
            (filter (fun g => Sqlite.column_eq (Grade.student_id g) (VText id))
                    (rows (grades db))))
         (order_by (date_desc Behavior.date)
            (filter (fun b => Sqlite.column_eq (Behavior.student_id b)
                                               (VText id))
                    (rows (behavior db))))).
Proof.
  intros Hs Hm. unfold getStudentDetail, may_read in *. rewrite Hs.
  apply negb_true_iff in Hm. rewrite Hm. reflexivity.
Qed.

(** ** Rejections *)

(** C2, as stated, fails: on the seeded store a request with no cookie to
    [GET /api/students] has no session, and is answered 403 Forbidden, not
    401, with the very response a student's session gets. *)
Lemma C2_no_session_gets_403 :
  getSessionUser (seeded true) None = None
  /\ status (listStudents (seeded true) None) = 403
  /\ status (listStudents (seeded true) None) <> 401
  /\ listStudents (seeded true) None = listStudents (seeded true) (Some "2").
Proof.
  repeat split; try reflexivity. discriminate.
Qed.

(** C2, amended.  On the five teacher-only routes every caller who is not a
    teacher, with or without a session, gets the same 403 Forbidden and the
    store is left as it was; only [GET /api/students/:id] tells the two
    apart: 401 without a session, 403 for a student asking for another id. *)
Theorem C2_rejections (db : Store) (userId : option string) (id : string)
  (student_id score : value) (date mark subject type today : string)
  (description : option string) :
  not_teacher (getSessionUser db userId) = true ->
  listStudents db userId = forbidden
  /\ addAttendance db userId student_id date mark = (db, forbidden)
  /\ addGrade db userId student_id subject score date = (db, forbidden)
  /\ addBehavior db userId student_id type description date = (db, forbidden)
  /\ computeStats db userId today = forbidden
  /\ status forbidden = 403
  /\ (getSessionUser db userId = None ->
      getStudentDetail db userId id = json 401 (Message "Unauthorized"))
  /\ (forall user, getSessionUser db userId = Some user ->
      may_read user id = false ->
      getStudentDetail db userId id = forbidden).
Proof.
  intros H.
  unfold listStudents, addAttendance, addGrade, addBehavior, computeStats.
  rewrite H. repeat split.
  - intros Hn. unfold getStudentDetail. rewrite Hn. reflexivity.
  - intros user Hs Hm. unfold getStudentDetail, may_read in *.
    rewrite Hs. apply negb_false_iff in Hm. rewrite Hm. reflexivity.
Qed.

Lemma C2_rejections_witness :
  listStudents (seeded true) None = forbidden
  /\ getStudentDetail (seeded true) None "1" = json 401 (Message "Unauthorized")
  /\ computeStats (seeded true) (Some "3") "2024-03-01" = forbidden
  /\ getStudentDetail (seeded true) (Some "3") "1" = forbidden.
Proof.
  pose proof (C2_rejections (seeded true) None "1" (VInt 1) VNull
                "2024-03-01" "present" "Fisika" "positive" "2024-03-01" None
                eq_refl) as (H1 & _ & _ & _ & _ & _ & H7 & _).
  pose proof (C2_rejections (seeded true) (Some "3") "1" (VInt 1) VNull
                "2024-03-01" "present" "Fisika" "positive" "2024-03-01" None
                eq_refl) as (_ & _ & _ & _ & H5 & _ & _ & H8).
  exact (conj H1 (conj (H7 eq_refl) (conj H5 (H8 _ eq_refl eq_refl)))).
Defined.

(** ** An id that names no student *)

(** C3, as stated, fails: the teacher asks for student 999 of the seeded
    store, which has no such row; the answer is 200 with a payload of three
    empty sequences, not 404. *)
Lemma C3_unknown_id_answers_200 :
  find (fun s => Sqlite.int_column_eq (Student.id s) (VText "999"))
       (rows (students (seeded true))) = None
  /\ getStudentDetail (seeded true) (Some "1") "999"
     = json 200 (Detail None [] [] [])
  /\ status (getStudentDetail (seeded true) (Some "1") "999") <> 404.
Proof.
  repeat split; try reflexivity. discriminate.
Qed.

(** C3, amended.  When the caller passes the gate and no student row has
    the requested id, the answer is 200 with a payload that carries no
    student field, only the three sequences selected for that id: each holds
    exactly the attendance, grade or behavior rows whose student_id is the
    requested id, by date descending. *)
Theorem C3_unknown_id (db : Store) (userId : option string) (id : string)
  (user : User.t) :
  getSessionUser db userId = Some user ->
  may_read user id = true ->
  (forall s, In s (rows (students db)) ->
             Sqlite.int_column_eq (Student.id s) (VText id) = false) ->
  exists att gr bh,
    getStudentDetail db userId id = json 200 (Detail None att gr bh)
    /\ status (getStudentDetail db userId id) = 200
    /\ (date_descending Attendance.date att
        /\ Permutation att
             (filter (fun a => Sqlite.column_eq (Attendance.student_id a)
                                                (VText id))
                     (rows (attendance db))))
    /\ (date_descending Grade.date gr
        /\ Permutation gr
             (filter (fun g => Sqlite.column_eq (Grade.student_id g)
                                                (VText id))
                     (rows (grades db))))
    /\ (date_descending Behavior.date bh
        /\ Permutation bh
             (filter (fun b => Sqlite.column_eq (Behavior.student_id b)
                                                (VText id))
                     (rows (behavior db)))).
Proof.
  intros Hs Hm Hno.
  rewrite (detail_authorized db userId id user Hs Hm).
  assert (Hfind : find (fun s => Sqlite.int_column_eq (Student.id s) (VText id))
                       (rows (students db)) = None).
  { destruct (find _ _) as [s |] eqn:E; [ | reflexivity ].
    apply find_some in E. destruct E as [Hin Ht].
    rewrite (Hno s Hin) in Ht. discriminate. }
  rewrite Hfind.
  do 3 eexists. split; [ reflexivity | ]. split; [ reflexivity | ].
  repeat split; first [ apply order_by_date_desc | apply order_by_perm ].
Qed.

Lemma C3_unknown_id_witness :
  exists att gr bh,
    getStudentDetail (seeded true) (Some "1") "999"
    = json 200 (Detail None att gr bh)
    /\ status (getStudentDetail (seeded true) (Some "1") "999") = 200
    /\ (date_descending Attendance.date att /\ Permutation att [])
    /\ (date_descending Grade.date gr /\ Permutation gr [])
    /\ (date_descending Behavior.date bh /\ Permutation bh []).
Proof.
  apply (C3_unknown_id (seeded true) (Some "1") "999"
           (User.mk 1 "guru" "guru123" "teacher" VNull)).
  - reflexivity.
  - reflexivity.
  - simpl. intros s Hs.
    repeat (destruct Hs as [<- | Hs]; [ reflexivity | ]). contradiction.
Defined.

(** ** Login *)

(** C5.  For a user row of a store that meets its schema, logging in with
    the row's username and password answers 200 with that user and sets a
    cookie with which [GET /api/me] answers the same user: id, username,
    role and student_id. *)
Theorem C5_login_then_me (db : Store) (u : User.t) (jar : option string) :
  wf_store db ->
  In u (rows (users db)) ->
  let r := login db (User.username u) (User.password u) in
  status r = 200
  /\ body r = LoginOk (view_of u)
  /\ me db (apply_cookie (cookie r) jar) = json 200 (Me (view_of u)).
Proof.
  intros Hwf Hin r.
  assert (Hfind :
            find (fun v => String.eqb (User.username v) (User.username u)
                           && String.eqb (User.password v) (User.password u))
                 (rows (users db)) = Some u).
  { apply find_unique with (key := User.username).
    - apply (wf_usernames db Hwf).
    - exact Hin.
    - rewrite !String.eqb_refl. reflexivity.
    - intros v _ Hv. apply andb_true_iff in Hv.
      apply String.eqb_eq, (proj1 Hv). }
  subst r. unfold login. rewrite Hfind. simpl.
  repeat split. unfold me.
  rewrite (getSessionUser_of_cookie db u Hwf Hin). reflexivity.
Qed.

Lemma C5_login_then_me_witness :
  let r := login (seeded true) "siti" "siswa123" in
  status r = 200
  /\ body r = LoginOk (mk_view 3 "siti" "student" (VInt 2))
  /\ me (seeded true) (apply_cookie (cookie r) None)
     = json 200 (Me (mk_view 3 "siti" "student" (VInt 2))).
Proof.
  apply (C5_login_then_me (seeded true)
           (User.mk 3 "siti" "siswa123" "student" (VInt 2)) None).
  - apply seeded_wf.
  - simpl. right. right. left. reflexivity.
Defined.



(** ** Inserts *)

Lemma foreign_key_ok_references (db : Store) (v : value) :
  references_student db v = true -> foreign_key_ok db v = true.
Proof.
  intros H. unfold foreign_key_ok. rewrite H. apply orb_true_r.
Qed.

Lemma references_existing_student (db : Store) (s : Student.t) :
  In s (rows (students db)) ->
  references_student db (VInt (Student.id s)) = true.
Proof.
  intros Hin. simpl. apply existsb_exists.
  exists s. split; [ exact Hin | apply Z.eqb_refl ].
Qed.

Lemma addAttendance_teacher (db : Store) (userId : option string)
  (student_id : value) (date mark : string) :
  not_teacher (getSessionUser db userId) = false ->
  addAttendance db userId student_id date mark
  = if foreign_key_ok db (Sqlite.numeric_affinity student_id)
    then (set_attendance db
            (append_row (attendance db) (next_id Attendance.id (attendance db))
               (new_attendance db student_id date mark)),
          json 200 Success)
    else (db, uncaught).
Proof.
  intros H. unfold addAttendance. rewrite H. reflexivity.
Qed.

Lemma addGrade_teacher (db : Store) (userId : option string)
  (student_id : value) (subject : string) (score : value) (date : string) :
  not_teacher (getSessionUser db userId) = false ->
  addGrade db userId student_id subject score date
  = if foreign_key_ok db (Sqlite.numeric_affinity student_id)
    then (set_grades db
            (append_row (grades db) (next_id Grade.id (grades db))
               (new_grade db student_id subject score date)),
          json 200 Success)
    else (db, uncaught).
Proof.
  intros H. unfold addGrade. rewrite H. reflexivity.
Qed.

Lemma addBehavior_teacher (db : Store) (userId : option string)
  (student_id : value) (type : string) (description : option string)
  (date : string) :
  not_teacher (getSessionUser db userId) = false ->
  addBehavior db userId student_id type description date
  = if foreign_key_ok db (Sqlite.numeric_affinity student_id)
    then (set_behavior db
            (append_row (behavior db) (next_id Behavior.id (behavior db))
               (new_behavior db student_id type description date)),
          json 200 Success)
    else (db, uncaught).
Proof.
  intros H. unfold addBehavior. rewrite H. reflexivity.
Qed.


Lemma text_affinity_none (number_text : value -> string) (v : value) :
  text_affinity number_text v = None <-> v = VNull.
Proof.
  destruct v; simpl; split; congruence.
Qed.

(** On a body whose NOT NULL fields are texts the handlers on any body are
    the handlers on typed bodies. *)
Lemma post_on_texts (number_text : value -> string) (db : Store)
  (userId : option string) (student_id score description : value)
  (date mark subject type : string) :
  post_attendance number_text db userId student_id (VText date) (VText mark)
  = addAttendance db userId student_id date mark
  /\ post_grades number_text db userId student_id (VText subject) score
       (VText date)
     = addGrade db userId student_id subject score date
  /\ post_behavior number_text db userId student_id (VText type) description
       (VText date)
     = addBehavior db userId student_id type
         (text_affinity number_text description) date.
Proof.
  repeat split.
Qed.



(** C10.  Each insert touches its own table only: whatever the request and
    its outcome, [POST /api/attendance] leaves users, students, grades and
    behavior as they were, [POST /api/grades] leaves users, students,
    attendance and behavior, [POST /api/behavior] leaves users, students,
    attendance and grades. *)
Theorem C10_insert_frame (db : Store) (userId : option string)
  (student_id score : value) (date mark subject type : string)
  (description : option string) :
  let a := fst (addAttendance db userId student_id date mark) in
  let g := fst (addGrade db userId student_id subject score date) in
  let b := fst (addBehavior db userId student_id type description date) in
  (users a = users db /\ students a = students db
   /\ grades a = grades db /\ behavior a = behavior db)
  /\ (users g = users db /\ students g = students db
      /\ attendance g = attendance db /\ behavior g = behavior db)
  /\ (users b = users db /\ students b = students db
      /\ attendance b = attendance db /\ grades b = grades db).
Proof.
  unfold addAttendance, addGrade, addBehavior.
  destruct (not_teacher (getSessionUser db userId)); simpl.
  - repeat split.
  - destruct (foreign_key_ok db (Sqlite.numeric_affinity student_id));
      simpl; repeat split.
Qed.

(** ** The detail of a student *)

Lemma sqlite_eq_int_inj (a b : Z) (w : value) :
  Sqlite.eq (VInt a) w = true -> Sqlite.eq (VInt b) w = true -> a = b.
Proof.
  destruct w as [| y | q | t]; simpl; try discriminate.
  - intros Ha Hb. apply Z.eqb_eq in Ha, Hb. congruence.
  - intros Ha Hb. apply Qeq_bool_iff in Ha, Hb.
    apply inject_Z_injective. rewrite Ha, Hb. reflexivity.
Qed.

Lemma find_student (db : Store) (id : string) (s : Student.t) :
  wf_store db -> In s (rows (students db)) ->
  Sqlite.int_column_eq (Student.id s) (VText id) = true ->
  find (fun x => Sqlite.int_column_eq (Student.id x) (VText id))
       (rows (students db)) = Some s.
Proof.
  intros Hwf Hin Hs.
  apply find_unique with (key := Student.id).
  - apply (wf_student_ids db Hwf).
  - exact Hin.
  - exact Hs.
  - intros v _ Hv. unfold Sqlite.int_column_eq in *.
    eapply sqlite_eq_int_inj; eassumption.
Qed.

Lemma order_by_nil_of_filter {row : Type} (le : row -> row -> bool)
  (f : row -> bool) (l : list row) :
  (forall r, In r l -> f r = false) -> order_by le (filter f l) = [].
Proof.
  intros H. replace (filter f l) with (@nil row); [ reflexivity | ].
  symmetry. induction l as [| r l IH]; [ reflexivity | ].
  simpl. rewrite (H r (or_introl eq_refl)). apply IH.
  intros x Hx. apply H. right. exact Hx.
Qed.

(** C7.  For a caller who passes the gate and an id that names a student
    row, the answer is that row merged with its attendance, grades and
    behavior rows; each sequence holds exactly the rows whose student_id is
    the requested id, by date descending, and is the empty sequence when
    there is no such row. *)
Theorem C7_detail_of_existing_student (db : Store) (userId : option string)
  (id : string) (user : User.t) (s : Student.t) :
  wf_store db ->
  getSessionUser db userId = Some user ->
  may_read user id = true ->
  In s (rows (students db)) ->
  Sqlite.int_column_eq (Student.id s) (VText id) = true ->
  exists att gr bh,
    getStudentDetail db userId id = json 200 (Detail (Some s) att gr bh)
    /\ (date_descending Attendance.date att
        /\ Permutation att
             (filter (fun a => Sqlite.column_eq (Attendance.student_id a)
                                                (VText id))
                     (rows (attendance db)))
        /\ ((forall a, In a (rows (attendance db)) ->
               Sqlite.column_eq (Attendance.student_id a) (VText id) = false)
            -> att = []))
    /\ (date_descending Grade.date gr
        /\ Permutation gr
             (filter (fun g => Sqlite.column_eq (Grade.student_id g)
                                                (VText id))
                     (rows (grades db)))
        /\ ((forall g, In g (rows (grades db)) ->
               Sqlite.column_eq (Grade.student_id g) (VText id) = false)
            -> gr = []))
    /\ (date_descending Behavior.date bh
        /\ Permutation bh
             (filter (fun b => Sqlite.column_eq (Behavior.student_id b)
                                                (VText id))
                     (rows (behavior db)))
        /\ ((forall b, In b (rows (behavior db)) ->
               Sqlite.column_eq (Behavior.student_id b) (VText id) = false)
            -> bh = [])).
Proof.
  intros Hwf Hs Hm Hin Hid.
  rewrite (detail_authorized db userId id user Hs Hm).
  rewrite (find_student db id s Hwf Hin Hid).
  do 3 eexists. split; [ reflexivity | ].
  repeat split;
    first [ apply order_by_date_desc
          | apply order_by_perm
          | apply order_by_nil_of_filter ].
Qed.

Lemma C7_detail_of_existing_student_witness :
  exists att gr bh,
    getStudentDetail (ten_students true) (Some "1") "10"
    = json 200
        (Detail (Some (Student.mk 10 "Joko Susilo" "12-B"
                         (Some "Slamet Susilo") (Some "08123456790")))
           att gr bh)
    /\ date_descending Attendance.date att
    /\ date_descending Grade.date gr
    /\ bh = [].
Proof.
  destruct (C7_detail_of_existing_student (ten_students true) (Some "1") "10"
              (User.mk 1 "guru" "guru123" "teacher" VNull)
              (Student.mk 10 "Joko Susilo" "12-B" (Some "Slamet Susilo")
                 (Some "08123456790")))
    as (att & gr & bh & Hr & (Ha & _) & (Hg & _) & (_ & _ & Hb)).
  - apply ten_students_wf.
  - reflexivity.
  - reflexivity.
  - simpl. do 9 right. left. reflexivity.
  - reflexivity.
  - exists att, gr, bh. repeat split; try assumption.
    apply Hb. simpl. intros b [].
Defined.

(** ** Statistics *)

Lemma count_occ_map_filter {A : Type} (f : A -> bool) (key : A -> string)
  (l : list A) (s : string) :
  count_occ string_dec (map key (filter f l)) s
  = List.length (filter (fun a => f a && String.eqb (key a) s) l).
Proof.
  induction l as [| a l IH]; [ reflexivity | ].
  simpl. destruct (f a); simpl; [ | exact IH ].
  destruct (string_dec (key a) s) as [E | E].
  - apply String.eqb_eq in E. rewrite E. simpl. f_equal. exact IH.
  - apply String.eqb_neq in E. rewrite E. exact IH.
Qed.

Lemma group_count_spec (l : list string) (s : string) (c : nat) :
  In (s, c) (group_count l)
  <-> c = count_occ string_dec l s /\ (0 < c)%nat.
Proof.
  unfold group_count. rewrite in_map_iff. split.
  - intros (t & Ht & Hin). inversion Ht; subst.
    apply order_by_In, nodup_In in Hin.
    split; [ reflexivity | ].
    apply (count_occ_In string_dec). exact Hin.
  - intros (-> & Hpos). exists s. split; [ reflexivity | ].
    apply order_by_In, nodup_In.
    apply (count_occ_In string_dec). exact Hpos.
Qed.

Lemma group_count_NoDup (l : list string) : NoDup (map fst (group_count l)).
Proof.
  unfold group_count. rewrite map_map. simpl. rewrite map_id.
  apply Permutation_NoDup with (l := nodup string_dec l).
  - apply Permutation_sym, order_by_perm.
  - apply NoDup_nodup.
Qed.

(** C8.  For a teacher, the statistics are the number of student rows and,
    over the attendance rows dated [today] only, one [(status, count)] pair
    per status: no status occurs twice, each count is the exact number of
    today's rows with that status, and a status with no row today has no
    pair. *)
Theorem C8_stats (db : Store) (userId : option string) (today : string) :
  not_teacher (getSessionUser db userId) = false ->
  exists groups,
    computeStats db userId today
    = json 200 (Stats (List.length (rows (students db))) groups)
    /\ NoDup (map fst groups)
    /\ (forall s c, In (s, c) groups
                    <-> c = count_today db today s /\ (0 < c)%nat)
    /\ (forall s, count_today db today s = O -> ~ In s (map fst groups)).
Proof.
  intros H. unfold computeStats. rewrite H.
  eexists. split; [ reflexivity | ].
  assert (Hspec : forall s c,
             In (s, c)
               (group_count
                  (map Attendance.status
                     (filter (fun a => String.eqb (Attendance.date a) today)
                             (rows (attendance db)))))
             <-> c = count_today db today s /\ (0 < c)%nat).
  { intros s c. rewrite group_count_spec, count_occ_map_filter.
    reflexivity. }
  split; [ apply group_count_NoDup | ].
  split; [ exact Hspec | ].
  intros s Hz Hin. apply in_map_iff in Hin.
  destruct Hin as ([t c] & Ht & Hin). simpl in Ht. subst t.
  apply Hspec in Hin. lia.
Qed.

Lemma C8_stats_witness :
  exists groups,
    computeStats (ten_students true) (Some "1") "2024-03-01"
    = json 200 (Stats 10 groups)
    /\ In ("sick", 1%nat) groups
    /\ ~ In "present" (map fst groups).
Proof.
  destruct (C8_stats (ten_students true) (Some "1") "2024-03-01" eq_refl)
    as (groups & Hr & _ & Hspec & Hzero).
  exists groups. split; [ exact Hr | ]. split.
  - apply Hspec. split; [ reflexivity | apply Nat.lt_0_1 ].
  - apply Hzero. reflexivity.
Defined.

(** ** An insert followed by a fetch *)

(** C9.  After a teacher records attendance for an existing student, the
    detail of that student, fetched by anyone who passes the gate, is the
    student's row with an attendance sequence that contains the row just
    inserted and is by date descending. *)
Theorem C9_insert_then_fetch (db : Store) (teacherId viewerId : option string)
  (viewer : User.t) (id : string) (s : Student.t) (student_id : value)
  (date mark : string) :
  wf_store db ->
  not_teacher (getSessionUser db teacherId) = false ->
  In s (rows (students db)) ->
  Sqlite.numeric_affinity student_id = VInt (Student.id s) ->
  Sqlite.numeric_affinity (VText id) = VInt (Student.id s) ->
  let db' := fst (addAttendance db teacherId student_id date mark) in
  getSessionUser db' viewerId = Some viewer ->
  may_read viewer id = true ->
  snd (addAttendance db teacherId student_id date mark) = json 200 Success
  /\ exists att gr bh,
       getStudentDetail db' viewerId id = json 200 (Detail (Some s) att gr bh)
       /\ In (new_attendance db student_id date mark) att
       /\ date_descending Attendance.date att.
Proof.
  intros Hwf Ht Hin Hsid Hid db'. subst db'.
  rewrite (addAttendance_teacher _ _ _ _ _ Ht).
  rewrite Hsid, (foreign_key_ok_references _ _
                   (references_existing_student db s Hin)).
  cbn [fst snd]. intros Hv Hm.
  split; [ reflexivity | ].
  rewrite (detail_authorized _ _ _ _ Hv Hm).
  cbn [students attendance set_attendance append_row rows].
  assert (Hs : Sqlite.int_column_eq (Student.id s) (VText id) = true).
  { rewrite (int_column_eq_int _ _ _ Hid). apply Z.eqb_refl. }
  rewrite (find_student db id s Hwf Hin Hs).
  do 3 eexists. split; [ reflexivity | ]. split.
  - apply order_by_In, filter_In. split.
    + apply in_or_app. right. left. reflexivity.
    + unfold Sqlite.column_eq, new_attendance. cbn [Attendance.student_id].
      rewrite Hsid, Hid. apply Z.eqb_refl.
  - apply order_by_date_desc.
Qed.

Lemma C9_insert_then_fetch_witness :
  let db' :=
    fst (addAttendance (seeded true) (Some "1") (VInt 1) "2024-03-04"
           "present") in
  snd (addAttendance (seeded true) (Some "1") (VInt 1) "2024-03-04" "present")
  = json 200 Success
  /\ exists att gr bh,
       getStudentDetail db' (Some "2") "1"
       = json 200
           (Detail (Some (Student.mk 1 "Ahmad Fauzi" "10-A"
                            (Some "Budi Santoso") (Some "08123456789")))
              att gr bh)
       /\ In (Attendance.mk 1 (VInt 1) "2024-03-04" "present") att
       /\ date_descending Attendance.date att.
Proof.
  apply (C9_insert_then_fetch (seeded true) (Some "1") (Some "2")
           (User.mk 2 "ahmad" "siswa123" "student" (VInt 1)) "1"
           (Student.mk 1 "Ahmad Fauzi" "10-A" (Some "Budi Santoso")
              (Some "08123456789"))
           (VInt 1) "2024-03-04" "present").
  - apply seeded_wf.
  - reflexivity.
  - simpl. left. reflexivity.
  - reflexivity.
  - reflexivity.
  - reflexivity.
  - reflexivity.
Defined.

(** ** The schema is kept *)

Lemma fold_max_ge (l : list Z) (s x : Z) :
  In x l -> x <= fold_right Z.max s l.
Proof.
  induction l as [| y l IH]; simpl; [ contradiction | ].
  intros [-> | Hin]; [ lia | ].
  specialize (IH Hin). lia.
Qed.

Lemma append_row_NoDup {row : Type} (id : row -> Z) (t : table row)
  (r : row) :
  id r = next_id id t ->
  NoDup (map id (rows t)) ->
  NoDup (map id (rows (append_row t (id r) r))).
Proof.
  intros Hr Hnd. cbn [append_row rows]. rewrite map_app. simpl.
  apply Permutation_NoDup with (l := id r :: map id (rows t)).
  - apply Permutation_cons_append.
  - constructor; [ | exact Hnd ].
    intros Hin. apply (fold_max_ge _ (sequence t)) in Hin.
    unfold next_id in Hr. lia.
Qed.

(** The three inserts keep the rowids of their table distinct. *)
Lemma inserts_preserve_wf (db : Store) (userId : option string)
  (student_id score : value) (date mark subject type : string)
  (description : option string) :
  wf_store db ->
  wf_store (fst (addAttendance db userId student_id date mark))
  /\ wf_store (fst (addGrade db userId student_id subject score date))
  /\ wf_store (fst (addBehavior db userId student_id type description date)).
Proof.
  intros [H1 H2 H3 H4 H5 H6].
  unfold addAttendance, addGrade, addBehavior.
  destruct (not_teacher (getSessionUser db userId)); cbn [fst];
    [ repeat split; assumption | ].
  destruct (foreign_key_ok db _); cbn [fst];
    repeat split; cbn [users students attendance grades behavior
                         set_attendance set_grades set_behavior];
    try assumption; try (apply append_row_NoDup; [ reflexivity | assumption ]).
Qed.

(** * Further properties of the server and its client *)

(** ** Reading a printed integer with [parseInt] *)

Section ParseInt_roundtrip.

Import Decimal.

Lemma radix_of_uint (d : uint) :
  match NilEmpty.string_of_uint d with
  | String "0" (String "x" r) => (16, r)
  | String "0" (String "X" r) => (16, r)
  | _ => (10, NilEmpty.string_of_uint d)
  end = (10, NilEmpty.string_of_uint d).
Proof.
  destruct d as [| l | l | l | l | l | l | l | l | l | l];
    try reflexivity.
  destruct l; reflexivity.
Qed.

Lemma parseInt_digits (neg : bool) (d : uint) :
  d <> Nil ->
  (let (radix, s2) :=
     match NilEmpty.string_of_uint d with
     | String "0" (String "x" r) => (16, r)
     | String "0" (String "X" r) => (16, r)
     | _ => (10, NilEmpty.string_of_uint d)
     end in
   let '(v, n, _) := Lex.read_digits radix 0 0 s2 in
   match n with
   | O => None
   | S _ => Some (Lex.signed neg v)
   end) = Some (Lex.signed neg (Z.of_uint d)).
Proof.
  intros Hd. rewrite radix_of_uint, read_digits_uint.
  destruct d; [ contradiction | reflexivity .. ].
Qed.

Lemma parseInt_uint (d : uint) :
  parseInt (NilZero.string_of_uint d) = Some (Z.of_uint d).
Proof.
  destruct d eqn:E; [ reflexivity | .. ];
    rewrite <- E;
    assert (Hd : d <> Nil) by (rewrite E; discriminate);
    (replace (NilZero.string_of_uint d) with (NilEmpty.string_of_uint d)
      by (rewrite E; reflexivity));
    unfold parseInt;
    rewrite (read_sign_uint d Hd);
    apply (parseInt_digits false d Hd).
Qed.

Lemma parseInt_int (i : int) :
  parseInt (NilZero.string_of_int i) = Some (Z.of_int i).
Proof.
  destruct i as [d | d]; [ apply parseInt_uint | ].
  destruct d eqn:E; [ reflexivity | .. ];
    rewrite <- E;
    assert (Hd : d <> Nil) by (rewrite E; discriminate);
    cbn [NilZero.string_of_int];
    (replace (NilZero.string_of_uint d) with (NilEmpty.string_of_uint d)
      by (rewrite E; reflexivity));
    unfold parseInt;
    cbn [Lex.skip_spaces Lex.read_sign];
    change (Lex.is_space "-") with false; cbv iota;
    apply (parseInt_digits true d Hd).
Qed.

End ParseInt_roundtrip.

Lemma parseInt_String_of_number (n : Z) :
  parseInt (String_of_number n) = Some n.
Proof.
  unfold String_of_number. rewrite parseInt_int, DecimalZ.of_to. reflexivity.
Qed.

(** ** The session resolver *)

(** X1.  A cookie that holds the decimal text of an integer is a session
    exactly for the user with that id: in a store that meets its schema,
    [getSessionUser] on [String(n)] answers the user row whose id is [n],
    and no user when no row has that id.  The cookie is nothing but a user
    id. *)
Theorem X1_getSessionUser_decimal (db : Store) (n : Z) (u : User.t) :
  wf_store db ->
  getSessionUser db (Some (String_of_number n)) = Some u
  <-> In u (rows (users db)) /\ User.id u = n.
Proof.
  intros Hwf. split.
  - unfold getSessionUser.
    destruct (String_of_number n) eqn:E;
      [ discriminate | rewrite <- E ].
    intros H. apply find_some in H. destruct H as [Hin Hu].
    rewrite (int_column_eq_int _ _ _ (numeric_affinity_String_of_number n))
      in Hu.
    split; [ exact Hin | apply Z.eqb_eq, Hu ].
  - intros [Hin <-]. apply getSessionUser_of_cookie; assumption.
Qed.

Lemma X1_getSessionUser_decimal_witness :
  getSessionUser (seeded true) (Some (String_of_number 3))
  = Some (User.mk 3 "siti" "siswa123" "student" (VInt 2)).
Proof.
  apply (X1_getSessionUser_decimal (seeded true) 3
           (User.mk 3 "siti" "siswa123" "student" (VInt 2))
           (seeded_wf true)).
  split; [ | reflexivity ].
  simpl. right. right. left. reflexivity.
Defined.

(** ** Login and logout *)


Lemma find_user_by_credentials (db : Store) (u : User.t) :
  wf_store db ->
  In u (rows (users db)) ->
  find (fun v => String.eqb (User.username v) (User.username u)
                 && String.eqb (User.password v) (User.password u))
       (rows (users db)) = Some u.
Proof.
  intros Hwf Hin.
  apply find_unique with (key := User.username).
  - apply (wf_usernames db Hwf).
  - exact Hin.
  - rewrite !String.eqb_refl. reflexivity.
  - intros v _ Hv. apply andb_true_iff in Hv.
    apply String.eqb_eq, (proj1 Hv).
Qed.

(** X3.  The session life cycle: the cookie that a successful login sets
    makes [GET /api/me] answer the user; after [POST /api/logout], which
    answers 200 whether or not there was a session, the client holds no
    cookie and [GET /api/me] answers 401. *)
Theorem X3_login_logout_me (db : Store) (u : User.t) (jar : option string) :
  wf_store db ->
  In u (rows (users db)) ->
  let jar1 :=
    apply_cookie (cookie (login db (User.username u) (User.password u))) jar in
  let jar2 := apply_cookie (cookie logout) jar1 in
  me db jar1 = json 200 (Me (view_of u))
  /\ status logout = 200
  /\ jar2 = None
  /\ me db jar2 = json 401 (Message "Not authenticated").
Proof.
  intros Hwf Hin jar1 jar2. subst jar2 jar1.
  unfold login. rewrite (find_user_by_credentials db u Hwf Hin).
  cbn [cookie apply_cookie logout].
  repeat split. unfold me.
  rewrite (getSessionUser_of_cookie db u Hwf Hin). reflexivity.
Qed.

Lemma X3_login_logout_me_witness :
  let jar1 :=
    apply_cookie (cookie (login (seeded true) "guru" "guru123")) None in
  let jar2 := apply_cookie (cookie logout) jar1 in
  me (seeded true) jar1 = json 200 (Me (mk_view 1 "guru" "teacher" VNull))
  /\ status logout = 200
  /\ jar2 = None
  /\ me (seeded true) jar2 = json 401 (Message "Not authenticated").
Proof.
  apply (X3_login_logout_me (seeded true)
           (User.mk 1 "guru" "guru123" "teacher" VNull) None).
  - apply seeded_wf.
  - simpl. left. reflexivity.
Defined.

(** ** Who reads which record *)

(** X4.  Only the role [student] is ever refused by
    [GET /api/students/:id]: a session whose role is anything else, teacher
    or a text outside the two roles, is answered 200 for every id, known or
    not. *)
Theorem X4_other_roles_read_any_id (db : Store) (userId : option string)
  (id : string) (user : User.t) :
  getSessionUser db userId = Some user ->
  User.role user <> "student" ->
  status (getStudentDetail db userId id) = 200.
Proof.
  intros Hs Hr.
  rewrite (detail_authorized db userId id user Hs); [ reflexivity | ].
  unfold may_read. apply String.eqb_neq in Hr. rewrite Hr. reflexivity.
Qed.

Lemma X4_other_roles_read_any_id_witness :
  status (getStudentDetail (seeded true) (Some "1") "no such id") = 200.
Proof.
  apply (X4_other_roles_read_any_id (seeded true) (Some "1") "no such id"
           (User.mk 1 "guru" "guru123" "teacher" VNull)).
  - reflexivity.
  - discriminate.
Defined.

(** X5.  A student reads the own record: for a session whose user has role
    [student] and is bound to student [n], the request for the decimal text
    of [n] (what the client's [`/api/students/${id}`] sends) is answered 200
    with the row of student [n]. *)
Theorem X5_student_reads_own_record (db : Store) (userId : option string)
  (user : User.t) (s : Student.t) :
  wf_store db ->
  getSessionUser db userId = Some user ->
  User.student_id user = VInt (Student.id s) ->
  In s (rows (students db)) ->
  exists att gr bh,
    getStudentDetail db userId (String_of_number (Student.id s))
    = json 200 (Detail (Some s) att gr bh).
Proof.
  intros Hwf Hs Hsid Hin.
  rewrite (detail_authorized db userId _ user Hs).
  - rewrite (find_student db _ s Hwf Hin); [ eauto | ].
    rewrite (int_column_eq_int _ _ _ (numeric_affinity_String_of_number _)).
    apply Z.eqb_refl.
  - unfold may_read. rewrite Hsid, parseInt_String_of_number.
    cbn [strict_neq]. rewrite Z.eqb_refl, andb_false_r. reflexivity.
Qed.

Lemma X5_student_reads_own_record_witness :
  exists att gr bh,
    getStudentDetail (seeded true) (Some "3") "2"
    = json 200
        (Detail (Some (Student.mk 2 "Siti Aminah" "10-A" (Some "Hasan Basri")
                         (Some "08123456780")))
           att gr bh).
Proof.
  apply (X5_student_reads_own_record (seeded true) (Some "3")
           (User.mk 3 "siti" "siswa123" "student" (VInt 2))
           (Student.mk 2 "Siti Aminah" "10-A" (Some "Hasan Basri")
              (Some "08123456780"))).
  - apply seeded_wf.
  - reflexivity.
  - reflexivity.
  - simpl. right. left. reflexivity.
Defined.

Lemma in_order_by_filter {row : Type} (le : row -> row -> bool)
  (f : row -> bool) (l : list row) (r : row) :
  In r (order_by le (filter f l)) -> f r = true.
Proof.
  intros H. apply order_by_In, filter_In in H. tauto.
Qed.

(** X6.  Where the two readings of the path parameter agree, a student gets
    nothing but the own record: if [parseInt] and SQLite both read [id] as
    the integer [n] (as they do for every plain decimal text) and a student's
    request is answered with a payload, then the student is bound to [n],
    the student row in the payload has id [n], and every attendance, grade
    and behavior row in it has student_id [n]. *)
Theorem X6_student_payload_is_own (db : Store) (userId : option string)
  (id : string) (user : User.t) (n : Z) (st : option Student.t)
  (att : list Attendance.t) (gr : list Grade.t) (bh : list Behavior.t) :
  getSessionUser db userId = Some user ->
  User.role user = "student" ->
  parseInt id = Some n ->
  Sqlite.numeric_affinity (VText id) = VInt n ->
  getStudentDetail db userId id = json 200 (Detail st att gr bh) ->
  strict_neq (User.student_id user) (Some n) = false
  /\ (forall s, st = Some s -> Student.id s = n)
  /\ (forall a, In a att -> Sqlite.eq (Attendance.student_id a) (VInt n) = true)
  /\ (forall g, In g gr -> Sqlite.eq (Grade.student_id g) (VInt n) = true)
  /\ (forall b, In b bh -> Sqlite.eq (Behavior.student_id b) (VInt n) = true).
Proof.
  intros Hs Hr Hp Hq Hd.
  destruct (strict_neq (User.student_id user) (Some n)) eqn:Hneq.
  - rewrite (detail_gate_forbidden db userId id user Hs Hr) in Hd;
      [ discriminate | rewrite Hp; exact Hneq ].
  - rewrite (detail_authorized db userId id user Hs) in Hd;
      [ | unfold may_read; rewrite Hp, Hneq, andb_false_r; reflexivity ].
    injection Hd as <- <- <- <-.
    split; [ reflexivity | ]. split; [ | repeat split ].
    + intros s Hf. apply find_some in Hf. destruct Hf as [_ Hf].
      rewrite (int_column_eq_int _ _ _ Hq) in Hf. apply Z.eqb_eq, Hf.
    + intros a Ha. apply in_order_by_filter in Ha.
      unfold Sqlite.column_eq in Ha. rewrite Hq in Ha. exact Ha.
    + intros g Hg. apply in_order_by_filter in Hg.
      unfold Sqlite.column_eq in Hg. rewrite Hq in Hg. exact Hg.
    + intros b Hb. apply in_order_by_filter in Hb.
      unfold Sqlite.column_eq in Hb. rewrite Hq in Hb. exact Hb.
Qed.

Lemma X6_student_payload_is_own_witness :
  strict_neq (VInt 1) (Some 1) = false
  /\ (forall s,
        Some (Student.mk 1 "Ahmad Fauzi" "10-A" (Some "Budi Santoso")
                (Some "08123456789")) = Some s ->
        Student.id s = 1)
  /\ (forall a, In a [] ->
                Sqlite.eq (Attendance.student_id a) (VInt 1) = true)
  /\ (forall g, In g [] -> Sqlite.eq (Grade.student_id g) (VInt 1) = true)
  /\ (forall b, In b [] -> Sqlite.eq (Behavior.student_id b) (VInt 1) = true).
Proof.
  exact (X6_student_payload_is_own (seeded true) (Some "2") "1"
           (User.mk 2 "ahmad" "siswa123" "student" (VInt 1)) 1
           (Some (Student.mk 1 "Ahmad Fauzi" "10-A" (Some "Budi Santoso")
                    (Some "08123456789")))
           [] [] []
           eq_refl eq_refl eq_refl eq_refl eq_refl).
Defined.

(** ** More on the inserts *)

(** X7.  After a teacher records a grade for an existing student, the detail
    of that student, fetched by anyone who passes the gate, has a grades
    sequence that contains the row just inserted and is by date
    descending. *)
Theorem X7_grade_then_fetch (db : Store) (teacherId viewerId : option string)
  (viewer : User.t) (id : string) (s : Student.t) (student_id score : value)
  (subject date : string) :
  wf_store db ->
  not_teacher (getSessionUser db teacherId) = false ->
  In s (rows (students db)) ->
  Sqlite.numeric_affinity student_id = VInt (Student.id s) ->
  Sqlite.numeric_affinity (VText id) = VInt (Student.id s) ->
  let db' := fst (addGrade db teacherId student_id subject score date) in
  getSessionUser db' viewerId = Some viewer ->
  may_read viewer id = true ->
  snd (addGrade db teacherId student_id subject score date) = json 200 Success
  /\ exists att gr bh,
       getStudentDetail db' viewerId id = json 200 (Detail (Some s) att gr bh)
       /\ In (new_grade db student_id subject score date) gr
       /\ date_descending Grade.date gr.
Proof.
  intros Hwf Ht Hin Hsid Hid db'. subst db'.
  rewrite (addGrade_teacher _ _ _ _ _ _ Ht).
  rewrite Hsid, (foreign_key_ok_references _ _
                   (references_existing_student db s Hin)).
  cbn [fst snd]. intros Hv Hm.
  split; [ reflexivity | ].
  rewrite (detail_authorized _ _ _ _ Hv Hm).
  cbn [students grades set_grades append_row rows].
  assert (Hs : Sqlite.int_column_eq (Student.id s) (VText id) = true).
  { rewrite (int_column_eq_int _ _ _ Hid). apply Z.eqb_refl. }
  rewrite (find_student db id s Hwf Hin Hs).
  do 3 eexists. split; [ reflexivity | ]. split.
  - apply order_by_In, filter_In. split.
    + apply in_or_app. right. left. reflexivity.
    + unfold Sqlite.column_eq, new_grade. cbn [Grade.student_id].
      rewrite Hsid, Hid. apply Z.eqb_refl.
  - apply order_by_date_desc.
Qed.

Lemma X7_grade_then_fetch_witness :
  let db' :=
    fst (addGrade (seeded true) (Some "1") (VText "2") "Fisika" (VInt 90)
           "2024-03-05") in
  snd (addGrade (seeded true) (Some "1") (VText "2") "Fisika" (VInt 90)
         "2024-03-05")
  = json 200 Success
  /\ exists att gr bh,
       getStudentDetail db' (Some "3") "2"
       = json 200
           (Detail (Some (Student.mk 2 "Siti Aminah" "10-A"
                            (Some "Hasan Basri") (Some "08123456780")))
              att gr bh)
       /\ In (Grade.mk 1 (VInt 2) "Fisika" (VReal (inject_Z 90)) "2024-03-05")
             gr
       /\ date_descending Grade.date gr.
Proof.
  apply (X7_grade_then_fetch (seeded true) (Some "1") (Some "3")
           (User.mk 3 "siti" "siswa123" "student" (VInt 2)) "2"
           (Student.mk 2 "Siti Aminah" "10-A" (Some "Hasan Basri")
              (Some "08123456780"))
           (VText "2") (VInt 90) "Fisika" "2024-03-05");
    solve [ apply seeded_wf | reflexivity | simpl; tauto ].
Defined.

(** X8.  After a teacher records a behavior note for an existing student,
    the detail of that student, fetched by anyone who passes the gate, has a
    behavior sequence that contains the row just inserted and is by date
    descending. *)
Theorem X8_behavior_then_fetch (db : Store)
  (teacherId viewerId : option string) (viewer : User.t) (id : string)
  (s : Student.t) (student_id : value) (type : string)
  (description : option string) (date : string) :
  wf_store db ->
  not_teacher (getSessionUser db teacherId) = false ->
  In s (rows (students db)) ->
  Sqlite.numeric_affinity student_id = VInt (Student.id s) ->
  Sqlite.numeric_affinity (VText id) = VInt (Student.id s) ->
  let db' :=
    fst (addBehavior db teacherId student_id type description date) in
  getSessionUser db' viewerId = Some viewer ->
  may_read viewer id = true ->
  snd (addBehavior db teacherId student_id type description date)
  = json 200 Success
  /\ exists att gr bh,
       getStudentDetail db' viewerId id = json 200 (Detail (Some s) att gr bh)
       /\ In (new_behavior db student_id type description date) bh
       /\ date_descending Behavior.date bh.
Proof.
  intros Hwf Ht Hin Hsid Hid db'. subst db'.
  rewrite (addBehavior_teacher _ _ _ _ _ _ Ht).
  rewrite Hsid, (foreign_key_ok_references _ _
                   (references_existing_student db s Hin)).
  cbn [fst snd]. intros Hv Hm.
  split; [ reflexivity | ].
  rewrite (detail_authorized _ _ _ _ Hv Hm).
  cbn [students behavior set_behavior append_row rows].
  assert (Hs : Sqlite.int_column_eq (Student.id s) (VText id) = true).
  { rewrite (int_column_eq_int _ _ _ Hid). apply Z.eqb_refl. }
  rewrite (find_student db id s Hwf Hin Hs).
  do 3 eexists. split; [ reflexivity | ]. split.
  - apply order_by_In, filter_In. split.
    + apply in_or_app. right. left. reflexivity.
    + unfold Sqlite.column_eq, new_behavior. cbn [Behavior.student_id].
      rewrite Hsid, Hid. apply Z.eqb_refl.
  - apply order_by_date_desc.
Qed.

Lemma X8_behavior_then_fetch_witness :
  let db' :=
    fst (addBehavior (seeded true) (Some "1") (VInt 1) "positive"
           (Some "Membantu teman") "2024-03-05") in
  snd (addBehavior (seeded true) (Some "1") (VInt 1) "positive"
         (Some "Membantu teman") "2024-03-05")
  = json 200 Success
  /\ exists att gr bh,
       getStudentDetail db' (Some "1") "1"
       = json 200
           (Detail (Some (Student.mk 1 "Ahmad Fauzi" "10-A"
                            (Some "Budi Santoso") (Some "08123456789")))
              att gr bh)
       /\ In (Behavior.mk 1 (VInt 1) "positive" (Some "Membantu teman")
                "2024-03-05") bh
       /\ date_descending Behavior.date bh.
Proof.
  apply (X8_behavior_then_fetch (seeded true) (Some "1") (Some "1")
           (User.mk 1 "guru" "guru123" "teacher" VNull) "1"
           (Student.mk 1 "Ahmad Fauzi" "10-A" (Some "Budi Santoso")
              (Some "08123456789"))
           (VInt 1) "positive" (Some "Membantu teman") "2024-03-05");
    solve [ apply seeded_wf | reflexivity | simpl; tauto ].
Defined.

(** ** Row ids *)

Lemma next_id_fresh {row : Type} (id : row -> Z) (t : table row) (r : row) :
  In r (rows t) -> id r < next_id id t.
Proof.
  intros Hin. unfold next_id.
  pose proof (fold_max_ge (map id (rows t)) (sequence t) (id r)
                (in_map id _ _ Hin)).
  lia.
Qed.

Lemma fold_max_start (l : list Z) (s : Z) : s <= fold_right Z.max s l.
Proof.
  induction l as [| y l IH]; simpl; lia.
Qed.

Lemma fold_max_bounded (l : list Z) (s : Z) :
  (forall x, In x l -> x <= s) -> fold_right Z.max s l = s.
Proof.
  induction l as [| y l IH]; intros H; simpl; [ reflexivity | ].
  rewrite IH; [ | intros x Hx; apply H; right; exact Hx ].
  specialize (H y (or_introl eq_refl)). lia.
Qed.

Lemma next_id_append {row : Type} (id : row -> Z) (t : table row) (r : row) :
  id r = next_id id t ->
  next_id id (append_row t (id r) r) = next_id id t + 1.
Proof.
  intros Hr. unfold next_id at 1. cbn [append_row rows sequence].
  rewrite fold_max_bounded; [ lia | ].
  intros x Hx. rewrite map_app in Hx. apply in_app_or in Hx.
  destruct Hx as [Hx | [<- | []]]; [ | lia ].
  apply in_map_iff in Hx. destruct Hx as (y & <- & Hy).
  pose proof (next_id_fresh id t y Hy). lia.
Qed.

(** X9.  The inserts keep the schema's keys: in a store whose primary keys
    and usernames are distinct they stay distinct after any of the three
    requests, and the id given to a new row is larger than the id of every
    row its table holds. *)
Theorem X9_inserts_keep_keys (db : Store) (userId : option string)
  (student_id score : value) (date mark subject type : string)
  (description : option string) :
  wf_store db ->
  (wf_store (fst (addAttendance db userId student_id date mark))
   /\ wf_store (fst (addGrade db userId student_id subject score date))
   /\ wf_store (fst (addBehavior db userId student_id type description date)))
  /\ (forall a, In a (rows (attendance db)) ->
        Attendance.id a
        < Attendance.id (new_attendance db student_id date mark))
  /\ (forall g, In g (rows (grades db)) ->
        Grade.id g < Grade.id (new_grade db student_id subject score date))
  /\ (forall b, In b (rows (behavior db)) ->
        Behavior.id b
        < Behavior.id (new_behavior db student_id type description date)).
Proof.
  intros Hwf. split; [ apply inserts_preserve_wf, Hwf | ].
  repeat split; intros r Hr; apply next_id_fresh, Hr.
Qed.

Lemma X9_inserts_keep_keys_witness :
  (wf_store (fst (addAttendance (ten_students true) (Some "1") (VInt 3)
                    "2024-03-05" "late"))
   /\ wf_store (fst (addGrade (ten_students true) (Some "1") (VInt 3)
                       "Fisika" (VInt 70) "2024-03-05"))
   /\ wf_store (fst (addBehavior (ten_students true) (Some "1") (VInt 3)
                       "negative" None "2024-03-05")))
  /\ (forall a, In a (rows (attendance (ten_students true))) ->
        Attendance.id a < 2)
  /\ (forall g, In g (rows (grades (ten_students true))) -> Grade.id g < 2)
  /\ (forall b, In b (rows (behavior (ten_students true))) ->
        Behavior.id b < 1).
Proof.
  exact (X9_inserts_keep_keys (ten_students true) (Some "1") (VInt 3)
           (VInt 70) "2024-03-05" "late" "Fisika" "negative" None
           (ten_students_wf true)).
Defined.

(** X10.  Ids are handed out in sequence: after an insert that succeeded,
    the next row of the same table gets the id that follows, whatever the two
    requests carry. *)
Theorem X10_consecutive_ids (db : Store) (userId : option string)
  (student_id score student_id' score' : value)
  (date mark subject type date' mark' subject' type' : string)
  (description description' : option string) :
  not_teacher (getSessionUser db userId) = false ->
  foreign_key_ok db (Sqlite.numeric_affinity student_id) = true ->
  Attendance.id
    (new_attendance (fst (addAttendance db userId student_id date mark))
       student_id' date' mark')
  = Attendance.id (new_attendance db student_id date mark) + 1
  /\ Grade.id
       (new_grade (fst (addGrade db userId student_id subject score date))
          student_id' subject' score' date')
     = Grade.id (new_grade db student_id subject score date) + 1
  /\ Behavior.id
       (new_behavior
          (fst (addBehavior db userId student_id type description date))
          student_id' type' description' date')
     = Behavior.id (new_behavior db student_id type description date) + 1.
Proof.
  intros Ht Hfk.
  rewrite (addAttendance_teacher _ _ _ _ _ Ht),
          (addGrade_teacher _ _ _ _ _ _ Ht),
          (addBehavior_teacher _ _ _ _ _ _ Ht), Hfk.
  cbn [fst new_attendance new_grade new_behavior attendance grades behavior
       set_attendance set_grades set_behavior
       Attendance.id Grade.id Behavior.id].
  repeat split.
  - apply (next_id_append Attendance.id (attendance db)
             (new_attendance db student_id date mark)). reflexivity.
  - apply (next_id_append Grade.id (grades db)
             (new_grade db student_id subject score date)). reflexivity.
  - apply (next_id_append Behavior.id (behavior db)
             (new_behavior db student_id type description date)). reflexivity.
Qed.

Lemma X10_consecutive_ids_witness :
  Attendance.id
    (new_attendance
       (fst (addAttendance (ten_students true) (Some "1") (VInt 3)
               "2024-03-05" "late"))
       (VInt 4) "2024-03-06" "present")
  = 2 + 1
  /\ Grade.id
       (new_grade
          (fst (addGrade (ten_students true) (Some "1") (VInt 3) "Fisika"
                  (VInt 70) "2024-03-05"))
          (VInt 4) "Kimia" (VInt 60) "2024-03-06")
     = 2 + 1
  /\ Behavior.id
       (new_behavior
          (fst (addBehavior (ten_students true) (Some "1") (VInt 3)
                  "negative" None "2024-03-05"))
          (VInt 4) "positive" None "2024-03-06")
     = 1 + 1.
Proof.
  exact (X10_consecutive_ids (ten_students true) (Some "1") (VInt 3)
           (VInt 70) (VInt 4) (VInt 60) "2024-03-05" "late" "Fisika"
           "negative" "2024-03-06" "present" "Kimia" "positive" None None
           eq_refl eq_refl).
Defined.

(** ** Referential integrity *)

(** X11.  With foreign keys enforced the inserts keep referential integrity:
    if every attendance, grade and behavior row names a student row or holds
    NULL, the same is true after any of the three requests. *)
Theorem X11_inserts_keep_references (db : Store) (userId : option string)
  (student_id score : value) (date mark subject type : string)
  (description : option string) :
  foreign_keys db = true ->
  references_ok db ->
  references_ok (fst (addAttendance db userId student_id date mark))
  /\ references_ok (fst (addGrade db userId student_id subject score date))
  /\ references_ok
       (fst (addBehavior db userId student_id type description date)).
Proof.
  intros Hfk [Ha Hg Hb].
  unfold addAttendance, addGrade, addBehavior.
  destruct (not_teacher (getSessionUser db userId)); cbn [fst];
    [ repeat split; assumption | ].
  cbn [new_attendance new_grade new_behavior Attendance.student_id
       Grade.student_id Behavior.student_id].
  destruct (foreign_key_ok db (Sqlite.numeric_affinity student_id)) eqn:Hok;
    cbn [fst]; [ | repeat split; assumption ].
  unfold foreign_key_ok in Hok. rewrite Hfk in Hok. simpl in Hok.
  repeat split; cbn [attendance grades behavior set_attendance set_grades
                       set_behavior append_row rows];
    try assumption;
    intros r Hr; apply in_app_or in Hr;
    (destruct Hr as [Hr | [<- | []]];
     [ first [ exact (Ha _ Hr) | exact (Hg _ Hr) | exact (Hb _ Hr) ]
     | exact Hok ]).
Qed.

Lemma X11_inserts_keep_references_witness :
  references_ok
    (fst (addAttendance (ten_students true) (Some "1") (VInt 3)
            "2024-03-05" "late"))
  /\ references_ok
       (fst (addGrade (ten_students true) (Some "1") (VInt 3) "Fisika"
               (VInt 70) "2024-03-05"))
  /\ references_ok
       (fst (addBehavior (ten_students true) (Some "1") (VInt 3) "negative"
               None "2024-03-05")).
Proof.
  apply (X11_inserts_keep_references (ten_students true) (Some "1")).
  - reflexivity.
  - constructor; simpl; intros r Hr;
      repeat (destruct Hr as [<- | Hr]; [ reflexivity | ]); contradiction.
Defined.

(** ** More on the statistics *)

Lemma computeStats_teacher (db : Store) (userId : option string)
  (today : string) :
  not_teacher (getSessionUser db userId) = false ->
  computeStats db userId today
  = json 200
      (Stats (List.length (rows (students db)))
         (group_count
            (map Attendance.status
               (filter (fun a => String.eqb (Attendance.date a) today)
                       (rows (attendance db)))))).
Proof.
  intros H. unfold computeStats. rewrite H. reflexivity.
Qed.

Lemma today_groups_spec (db : Store) (today s : string) (c : nat) :
  In (s, c)
     (group_count
        (map Attendance.status
           (filter (fun a => String.eqb (Attendance.date a) today)
                   (rows (attendance db)))))
  <-> c = count_today db today s /\ (0 < c)%nat.
Proof.
  rewrite group_count_spec, count_occ_map_filter. reflexivity.
Qed.

Lemma count_today_append (db : Store) (r : Attendance.t) (n : Z)
  (today s : string) :
  count_today (set_attendance db (append_row (attendance db) n r)) today s
  = (count_today db today s
     + (if String.eqb (Attendance.date r) today
           && String.eqb (Attendance.status r) s
        then 1 else 0))%nat.
Proof.
  unfold count_today. cbn [attendance set_attendance append_row rows].
  rewrite filter_app, length_app. f_equal. simpl.
  destruct (_ && _); reflexivity.
Qed.

(** X12.  What an insert does to the statistics: after a teacher's
    attendance insert that succeeded, the count of the inserted status on
    the inserted date is one more than before, every other count of every
    day is unchanged, and so is the number of students; the statistics the
    teacher then fetches report exactly these counts. *)
Theorem X12_stats_after_insert (db : Store) (userId : option string)
  (student_id : value) (date mark today : string) :
  not_teacher (getSessionUser db userId) = false ->
  foreign_key_ok db (Sqlite.numeric_affinity student_id) = true ->
  let db' := fst (addAttendance db userId student_id date mark) in
  let now (s : string) : nat :=
    (count_today db today s
     + (if String.eqb date today && String.eqb mark s then 1 else 0))%nat in
  (forall s, count_today db' today s = now s)
  /\ exists groups,
       computeStats db' userId today
       = json 200 (Stats (List.length (rows (students db))) groups)
       /\ forall s c, In (s, c) groups <-> c = now s /\ (0 < c)%nat.
Proof.
  intros Ht Hfk db' now. subst db' now.
  rewrite (addAttendance_teacher _ _ _ _ _ Ht), Hfk. cbn [fst].
  assert (Hc : forall s,
             count_today
               (set_attendance db
                  (append_row (attendance db)
                     (next_id Attendance.id (attendance db))
                     (new_attendance db student_id date mark))) today s
             = (count_today db today s
                + (if String.eqb date today && String.eqb mark s
                   then 1 else 0))%nat).
  { intros s. apply count_today_append. }
  split; [ exact Hc | ].
  eexists. split.
  - exact (computeStats_teacher
             (set_attendance db
                (append_row (attendance db)
                   (next_id Attendance.id (attendance db))
                   (new_attendance db student_id date mark)))
             userId today Ht).
  - intros s c. rewrite today_groups_spec, Hc. reflexivity.
Qed.

Lemma X12_stats_after_insert_witness :
  let db' :=
    fst (addAttendance (ten_students true) (Some "1") (VInt 2) "2024-03-01"
           "sick") in
  let now (s : string) : nat :=
    (count_today (ten_students true) "2024-03-01" s
     + (if String.eqb "2024-03-01" "2024-03-01" && String.eqb "sick" s
        then 1 else 0))%nat in
  (forall s, count_today db' "2024-03-01" s = now s)
  /\ exists groups,
       computeStats db' (Some "1") "2024-03-01"
       = json 200 (Stats 10 groups)
       /\ forall s c, In (s, c) groups <-> c = now s /\ (0 < c)%nat.
Proof.
  exact (X12_stats_after_insert (ten_students true) (Some "1") (VInt 2)
           "2024-03-01" "sick" "2024-03-01" eq_refl eq_refl).
Defined.

Lemma count_occ_sum_absent (a : string) (l ks : list string) :
  ~ In a ks ->
  map (count_occ string_dec (a :: l)) ks = map (count_occ string_dec l) ks.
Proof.
  intros Hn. apply map_ext_in. intros s Hs.
  apply count_occ_cons_neq. intros ->. exact (Hn Hs).
Qed.

Lemma list_sum_head (x : nat) (l : list nat) :
  list_sum (x :: l) = (x + list_sum l)%nat.
Proof. reflexivity. Qed.

Lemma count_occ_sum_cons (a : string) (l ks : list string) :
  NoDup ks -> In a ks ->
  list_sum (map (count_occ string_dec (a :: l)) ks)
  = S (list_sum (map (count_occ string_dec l) ks)).
Proof.
  induction ks as [| k ks IH]; intros Hnd Hin; [ contradiction | ].
  inversion Hnd as [| ? ? Hk Hnd']; subst.
  rewrite !map_cons, !list_sum_head.
  destruct (string_dec a k) as [-> | Hne].
  - rewrite count_occ_cons_eq by reflexivity.
    rewrite (count_occ_sum_absent k l ks Hk). reflexivity.
  - rewrite count_occ_cons_neq by exact Hne.
    destruct Hin as [-> | Hin]; [ contradiction | ].
    rewrite (IH Hnd' Hin). apply Nat.add_succ_r.
Qed.

Lemma count_occ_sum (l ks : list string) :
  NoDup ks -> (forall s, In s l -> In s ks) ->
  list_sum (map (count_occ string_dec l) ks) = List.length l.
Proof.
  intros Hnd. induction l as [| a l IH]; intros Hin.
  - simpl. clear. induction ks as [| k ks IH]; [ reflexivity | exact IH ].
  - rewrite (count_occ_sum_cons a l ks Hnd (Hin a (or_introl eq_refl))).
    simpl. f_equal. apply IH. intros s Hs. apply Hin. right. exact Hs.
Qed.

(** X13.  The counts of the statistics add up: for a teacher, the sum of the
    counts in [attendanceToday] is the number of attendance rows dated
    [today]; no row of the day is left out or counted twice. *)
Theorem X13_stats_counts_sum (db : Store) (userId : option string)
  (today : string) :
  not_teacher (getSessionUser db userId) = false ->
  exists groups,
    computeStats db userId today
    = json 200 (Stats (List.length (rows (students db))) groups)
    /\ list_sum (map snd groups)
       = List.length
           (filter (fun a => String.eqb (Attendance.date a) today)
                   (rows (attendance db))).
Proof.
  intros Ht. eexists. split; [ apply computeStats_teacher, Ht | ].
  unfold group_count. rewrite map_map. cbn [snd].
  rewrite count_occ_sum.
  - apply length_map.
  - apply Permutation_NoDup with (l := nodup string_dec
        (map Attendance.status
           (filter (fun a => String.eqb (Attendance.date a) today)
                   (rows (attendance db))))).
    + apply Permutation_sym, order_by_perm.
    + apply NoDup_nodup.
  - intros s Hs. apply order_by_In, nodup_In. exact Hs.
Qed.

Lemma X13_stats_counts_sum_witness :
  exists groups,
    computeStats (ten_students true) (Some "1") "2024-03-01"
    = json 200 (Stats 10 groups)
    /\ list_sum (map snd groups) = 1%nat.
Proof.
  exact (X13_stats_counts_sum (ten_students true) (Some "1") "2024-03-01"
           eq_refl).
Defined.

(** ** The dashboard *)

Lemma stats_state_200 (b : payload) : stats_state (json 200 b) = Some b.
Proof. reflexivity. Qed.

(** X14.  The figure "Hadir Hari Ini" of the dashboard: computed by the
    client from the answer of [GET /api/stats], it is the number of
    attendance rows of the day with status [present] when the session is a
    teacher's, zero included although the answer then has no pair for
    [present]; for any other caller the answer is not ok and the figure
    is 0. *)
Theorem X14_present_today (db : Store) (userId : option string)
  (today : string) :
  present_today (stats_state (computeStats db userId today))
  = if not_teacher (getSessionUser db userId) then O
    else count_today db today "present".
Proof.
  destruct (not_teacher (getSessionUser db userId)) eqn:Ht.
  - unfold computeStats. rewrite Ht. reflexivity.
  - rewrite (computeStats_teacher db userId today Ht).
    rewrite stats_state_200. cbn [present_today].
    destruct (find _ _) as [[s c] |] eqn:E.
    + apply find_some in E. destruct E as [Hin Hs].
      cbn [fst] in Hs. apply String.eqb_eq in Hs. subst s.
      apply today_groups_spec in Hin. cbn [snd]. tauto.
    + destruct (count_today db today "present") as [| k] eqn:Hc;
        [ reflexivity | exfalso ].
      assert (Hin : In ("present", S k)
                       (group_count
                          (map Attendance.status
                             (filter (fun a => String.eqb (Attendance.date a)
                                                          today)
                                     (rows (attendance db)))))).
      { apply today_groups_spec. rewrite Hc. split; [ reflexivity | lia ]. }
      pose proof (find_none _ _ E _ Hin) as Hf. discriminate.
Qed.

(** ** Seeding at start-up *)

Lemma seed_students_nonempty (db : Store) :
  rows (students (seed_students db)) <> [].
Proof.
  unfold seed_students. destruct (rows (students db)) eqn:E.
  - cbn [insertStudent students set_students append_row rows].
    intros H. apply app_eq_nil in H. destruct H as [_ H]. discriminate.
  - rewrite E. discriminate.
Qed.

Lemma seed_students_kept (db : Store) :
  rows (students db) <> [] -> seed_students db = db.
Proof.
  unfold seed_students. destruct (rows (students db)); [ contradiction | ].
  reflexivity.
Qed.

Lemma seed_users_kept (db : Store) :
  rows (users db) <> [] -> seed_users db = Started db.
Proof.
  unfold seed_users. destruct (rows (users db)); [ contradiction | ].
  reflexivity.
Qed.

Lemma seed_users_empty (d : Store) :
  rows (users d) = [] ->
  let k := sequence (users d) in
  let guru := User.mk (k + 1) "guru" "guru123" "teacher" VNull in
  let ahmad := User.mk (k + 2) "ahmad" "siswa123" "student" (VInt 1) in
  let siti := User.mk (k + 3) "siti" "siswa123" "student" (VInt 2) in
  seed_users d
  = if foreign_key_ok d (VInt 1)
    then if foreign_key_ok d (VInt 2)
         then Started (set_users d (mk_table [guru; ahmad; siti] (k + 3)))
         else Threw (set_users d (mk_table [guru; ahmad] (k + 2)))
    else Threw (set_users d (mk_table [guru] (k + 1))).
Proof.
  destruct d as [[ur us] st at_ gr bh fk]. cbn [users rows sequence].
  intros ->. unfold seed_users, then_insertUser, insertUser, foreign_key_ok.
  destruct fk; simpl;
    [ destruct (existsb (fun s => Student.id s =? 1) (rows st)); simpl;
      [ destruct (existsb (fun s => Student.id s =? 2) (rows st)); simpl
      | ]
    | ];
    unfold set_users, append_row, next_id; simpl;
    repeat (f_equal; try lia).
Qed.

Lemma seed_students_frame (db : Store) :
  users (seed_students db) = users db
  /\ attendance (seed_students db) = attendance db
  /\ grades (seed_students db) = grades db
  /\ behavior (seed_students db) = behavior db
  /\ foreign_keys (seed_students db) = foreign_keys db.
Proof.
  unfold seed_students. destruct (rows (students db)); repeat split.
Qed.

Lemma seed_users_frame (d : Store) :
  students (store_of (seed_users d)) = students d
  /\ attendance (store_of (seed_users d)) = attendance d
  /\ grades (store_of (seed_users d)) = grades d
  /\ behavior (store_of (seed_users d)) = behavior d
  /\ foreign_keys (store_of (seed_users d)) = foreign_keys d.
Proof.
  destruct (rows (users d)) eqn:E.
  - rewrite (seed_users_empty d E).
    destruct (foreign_key_ok d (VInt 1)); [ | repeat split ].
    destruct (foreign_key_ok d (VInt 2)); repeat split.
  - rewrite seed_users_kept by (rewrite E; discriminate). repeat split.
Qed.

Lemma seed_users_nonempty (d : Store) :
  rows (users (store_of (seed_users d))) <> [].
Proof.
  destruct (rows (users d)) eqn:E.
  - rewrite (seed_users_empty d E).
    destruct (foreign_key_ok d (VInt 1)); [ | discriminate ].
    destruct (foreign_key_ok d (VInt 2)); discriminate.
  - rewrite seed_users_kept by (rewrite E; discriminate).
    cbn [store_of]. rewrite E. discriminate.
Qed.

(** Whatever the first start-up left, the next one finds both tables
    filled and starts on the store as it is. *)
Lemma seed_again (db : Store) :
  seed (store_of (seed db)) = Started (store_of (seed db)).
Proof.
  unfold seed at 1.
  rewrite seed_students_kept.
  - apply seed_users_kept, seed_users_nonempty.
  - unfold seed.
    rewrite (proj1 (seed_users_frame (seed_students db))).
    apply seed_students_nonempty.
Qed.

(** X15.  Seeding is idempotent: a store on which the server started is
    left as it is by the seeding of every later start-up. *)
Theorem X15_seed_idempotent (db db' : Store) :
  seed db = Started db' -> seed db' = Started db'.
Proof.
  intros H. pose proof (seed_again db) as Ha.
  rewrite H in Ha. exact Ha.
Qed.

Lemma X15_seed_idempotent_witness :
  seed (seeded true) = Started (seeded true).
Proof.
  apply (X15_seed_idempotent (empty_db true) (seeded true)).
  reflexivity.
Defined.

(** X16.  Seeding never touches what is there: the attendance, grades and
    behavior tables are as before, a students table that holds a row is as
    before, and so is a users table that holds a row, whether the start-up
    ends well or not. *)
Theorem X16_seed_keeps_data (db : Store) :
  let db' := store_of (seed db) in
  attendance db' = attendance db
  /\ grades db' = grades db
  /\ behavior db' = behavior db
  /\ (rows (students db) <> [] -> students db' = students db)
  /\ (rows (users db) <> [] -> users db' = users db).
Proof.
  intros db'. subst db'. unfold seed.
  destruct (seed_users_frame (seed_students db)) as (Hs & Ha & Hg & Hb & _).
  destruct (seed_students_frame db) as (Hu' & Ha' & Hg' & Hb' & _).
  repeat split; try congruence.
  - intros Hne. rewrite Hs, (seed_students_kept db Hne). reflexivity.
  - intros Hne. rewrite seed_users_kept; [ exact Hu' | ].
    rewrite Hu'. exact Hne.
Qed.

Lemma X16_seed_keeps_data_witness :
  attendance (store_of (seed (ten_students true)))
  = attendance (ten_students true)
  /\ students (store_of (seed (ten_students true)))
     = students (ten_students true)
  /\ users (store_of (seed (ten_students true))) = users (ten_students true).
Proof.
  destruct (X16_seed_keeps_data (ten_students true))
    as (Ha & _ & _ & Hs & Hu).
  split; [ exact Ha | ]. split; [ apply Hs | apply Hu ]; discriminate.
Defined.

Lemma insertStudent_ids (db : Store) (name class parent_name phone : string) :
  NoDup (map Student.id (rows (students db))) ->
  NoDup (map Student.id
           (rows (students (insertStudent db name class parent_name phone)))).
Proof.
  intros H. unfold insertStudent. cbn [students set_students].
  apply (append_row_NoDup Student.id (students db)
           (Student.mk (next_id Student.id (students db)) name class
              (Some parent_name) (Some phone)));
    [ reflexivity | exact H ].
Qed.

(** X17.  Seeding keeps the schema's keys: from a store whose primary keys
    and usernames are distinct it leaves one whose primary keys and usernames
    are distinct, whether the start-up ends well or not. *)
Theorem X17_seed_keeps_keys (db : Store) :
  wf_store db -> wf_store (store_of (seed db)).
Proof.
  intros [H1 H2 H3 H4 H5 H6]. unfold seed.
  destruct (seed_users_frame (seed_students db)) as (Hs & Ha & Hg & Hb & _).
  destruct (seed_students_frame db) as (Hu' & Ha' & Hg' & Hb' & _).
  assert (Hst : NoDup (map Student.id (rows (students (seed_students db))))).
  { unfold seed_students. destruct (rows (students db)) eqn:E.
    - repeat apply insertStudent_ids. rewrite E. constructor.
    - rewrite E. exact H3. }
  assert (Hus : NoDup (map User.id
                         (rows (users (store_of
                                         (seed_users (seed_students db))))))
                /\ NoDup (map User.username
                            (rows (users (store_of
                                            (seed_users (seed_students db))))))).
  { destruct (rows (users (seed_students db))) eqn:E.
    - rewrite (seed_users_empty _ E).
      destruct (foreign_key_ok _ (VInt 1));
        [ destruct (foreign_key_ok _ (VInt 2)) | ];
        cbn [store_of users set_users rows map User.id User.username];
        split;
        repeat (constructor; [ simpl; intuition (discriminate || lia) | ]);
        constructor.
    - rewrite seed_users_kept by (rewrite E; discriminate).
      cbn [store_of]. rewrite Hu'. split; assumption. }
  constructor; try tauto; congruence.
Qed.

Lemma X17_seed_keeps_keys_witness :
  wf_store (store_of (seed (empty_db true))).
Proof.
  apply (X17_seed_keeps_keys (empty_db true)).
  constructor; constructor.
Defined.

(** X18.  When start-up throws: exactly when foreign keys are enforced, the
    users table is empty and, after the students were seeded if they had to
    be, student 1 or student 2 is missing, so that the seeded users ahmad or
    siti cannot be bound.  In every other case the server starts. *)
Theorem X18_seed_throws_iff (db : Store) :
  (exists db', seed db = Threw db')
  <-> foreign_keys db = true
      /\ rows (users db) = []
      /\ (references_student (seed_students db) (VInt 1) = false
          \/ references_student (seed_students db) (VInt 2) = false).
Proof.
  unfold seed.
  destruct (seed_students_frame db) as (Hu & _ & _ & _ & Hfk).
  destruct (rows (users db)) eqn:E.
  - rewrite (seed_users_empty (seed_students db)) by congruence.
    unfold foreign_key_ok. rewrite Hfk.
    destruct (foreign_keys db); cbn [negb orb].
    + destruct (references_student (seed_students db) (VInt 1));
        destruct (references_student (seed_students db) (VInt 2));
        split; try (intros [d Hd]; discriminate);
        try (intros (_ & _ & [Hx | Hx]); discriminate);
        intros _; eauto.
    + split; [ intros [d Hd]; discriminate | intros [H _]; discriminate ].
  - rewrite seed_users_kept by (rewrite Hu, E; discriminate).
    split; [ intros [d Hd]; discriminate | intros (_ & H & _); discriminate ].
Qed.

(** X19.  A start-up that threw is never repaired.  The store it leaves has
    the teacher account but not siti's, and at the next start-up both tables
    hold rows, so nothing is seeded and the server starts on that store. *)
Theorem X19_seed_after_throw (db db' : Store) :
  seed db = Threw db' ->
  seed db' = Started db'
  /\ In "guru" (map User.username (rows (users db')))
  /\ ~ In "siti" (map User.username (rows (users db'))).
Proof.
  intros H. split.
  - pose proof (seed_again db) as Ha. rewrite H in Ha. exact Ha.
  - unfold seed in H.
    destruct (rows (users (seed_students db))) eqn:E.
    + rewrite (seed_users_empty _ E) in H.
      destruct (foreign_key_ok _ (VInt 1));
        [ destruct (foreign_key_ok _ (VInt 2)); [ discriminate | ] | ];
        injection H as <-; simpl; split; try tauto;
        intros Hin; intuition discriminate.
    + rewrite seed_users_kept in H by (rewrite E; discriminate).
      discriminate.
Qed.

Lemma X19_seed_after_throw_witness :
  seed (store_of (seed deleted_rows)) = Started (store_of (seed deleted_rows))
  /\ In "guru"
        (map User.username (rows (users (store_of (seed deleted_rows)))))
  /\ ~ In "siti"
         (map User.username (rows (users (store_of (seed deleted_rows))))).
Proof.
  apply (X19_seed_after_throw deleted_rows (store_of (seed deleted_rows))).
  reflexivity.
Defined.

(** ** The students list of the client *)

Lemma includes_empty (s : string) : includes s EmptyString = true.
Proof.
  destruct s; reflexivity.
Qed.

(** X20.  With the search box empty the list shows every student, in the
    order the server sent them. *)
Theorem X20_empty_search_shows_all (toLowerCase : string -> string)
  (students : list Student.t) :
  toLowerCase EmptyString = EmptyString ->
  filteredStudents toLowerCase students EmptyString = students.
Proof.
  intros H. unfold filteredStudents. rewrite H.
  induction students as [| s l IH]; [ reflexivity | ].
  simpl. rewrite includes_empty. simpl. f_equal. exact IH.
Qed.

Lemma X20_empty_search_shows_all_witness :
  filteredStudents ascii_toLowerCase (rows (students (seeded true))) ""
  = rows (students (seeded true)).
Proof.
  apply (X20_empty_search_shows_all ascii_toLowerCase).
  reflexivity.
Defined.

(** ** What an insert leaves alone *)

Lemma filter_append_rejected {row : Type} (f : row -> bool) (l : list row)
  (r : row) :
  f r = false -> filter f (l ++ [r]) = filter f l.
Proof.
  intros H. rewrite filter_app. simpl. rewrite H. apply app_nil_r.
Qed.

(** X21.  An insert for one student leaves the detail of every other
    student as it was: after a teacher's attendance, grade or behavior
    insert, a request for an id that the stored student_id does not equal is
    answered exactly as before the insert. *)
Theorem X21_other_details_unchanged (db : Store)
  (teacherId viewerId : option string) (id : string)
  (student_id score : value) (date mark subject type : string)
  (description : option string) :
  Sqlite.column_eq (Sqlite.numeric_affinity student_id) (VText id) = false ->
  getStudentDetail (fst (addAttendance db teacherId student_id date mark))
    viewerId id
  = getStudentDetail db viewerId id
  /\ getStudentDetail
       (fst (addGrade db teacherId student_id subject score date))
       viewerId id
     = getStudentDetail db viewerId id
  /\ getStudentDetail
       (fst (addBehavior db teacherId student_id type description date))
       viewerId id
     = getStudentDetail db viewerId id.
Proof.
  intros Hne.
  unfold addAttendance, addGrade, addBehavior.
  destruct (not_teacher (getSessionUser db teacherId)); cbn [fst];
    [ repeat split | ].
  cbn [new_attendance new_grade new_behavior Attendance.student_id
       Grade.student_id Behavior.student_id].
  destruct (foreign_key_ok db (Sqlite.numeric_affinity student_id));
    cbn [fst]; [ | repeat split ].
  unfold getStudentDetail.
  cbn [users students attendance grades behavior set_attendance set_grades
       set_behavior append_row rows].
  change (getSessionUser (set_attendance db _) viewerId)
    with (getSessionUser db viewerId).
  change (getSessionUser (set_grades db _) viewerId)
    with (getSessionUser db viewerId).
  change (getSessionUser (set_behavior db _) viewerId)
    with (getSessionUser db viewerId).
  rewrite !filter_append_rejected by exact Hne.
  repeat split.
Qed.

Lemma X21_other_details_unchanged_witness :
  getStudentDetail
    (fst (addAttendance (ten_students true) (Some "1") (VInt 3) "2024-03-05"
            "late"))
    (Some "1") "10"
  = getStudentDetail (ten_students true) (Some "1") "10"
  /\ getStudentDetail
       (fst (addGrade (ten_students true) (Some "1") (VInt 3) "Fisika"
               (VInt 70) "2024-03-05"))
       (Some "1") "10"
     = getStudentDetail (ten_students true) (Some "1") "10"
  /\ getStudentDetail
       (fst (addBehavior (ten_students true) (Some "1") (VInt 3) "negative"
               None "2024-03-05"))
       (Some "1") "10"
     = getStudentDetail (ten_students true) (Some "1") "10".
Proof.
  exact (X21_other_details_unchanged (ten_students true) (Some "1")
           (Some "1") "10" (VInt 3) (VInt 70) "2024-03-05" "late" "Fisika"
           "negative" None eq_refl).
Defined.

(** X22.  Grades and behavior notes never move the statistics, and no insert
    changes the list of students: after any grade or behavior request the
    answer of [GET /api/stats] is what it was, and after any of the three
    insert requests the answer of [GET /api/students] is what it was. *)
Theorem X22_inserts_and_lists (db : Store) (userId callerId : option string)
  (student_id score : value) (date mark subject type today : string)
  (description : option string) :
  computeStats (fst (addGrade db userId student_id subject score date))
    callerId today
  = computeStats db callerId today
  /\ computeStats
       (fst (addBehavior db userId student_id type description date))
       callerId today
     = computeStats db callerId today
  /\ listStudents (fst (addAttendance db userId student_id date mark))
       callerId
     = listStudents db callerId
  /\ listStudents (fst (addGrade db userId student_id subject score date))
       callerId
     = listStudents db callerId
  /\ listStudents
       (fst (addBehavior db userId student_id type description date))
       callerId
     = listStudents db callerId.
Proof.
  unfold addAttendance, addGrade, addBehavior.
  destruct (not_teacher (getSessionUser db userId)); cbn [fst];
    [ repeat split | ].
  cbn [new_attendance new_grade new_behavior Attendance.student_id
       Grade.student_id Behavior.student_id].
  destruct (foreign_key_ok db (Sqlite.numeric_affinity student_id));
    cbn [fst]; repeat split.
Qed.
